(** * Teaching-assistant chatbot demo (app.py): session state and panels

    A shallow embedding of [app.py].  Python strings are sequences of
    Unicode code points, the records stored in the session are Python
    dicts with string keys, and [st.session_state] is itself a mapping
    from attribute names to lists of such dicts.  The Streamlit calls
    that draw on the page are recorded as a list of page elements, and
    the values the widgets hand back to the script (chat input, text
    areas, buttons, select box) and the clock are arguments of the
    handlers. *)

From Stdlib Require Import NArith Ascii String List Lia Decimal DecimalString.
From stdpp Require Import base option list gmap strings fin_maps.

Local Open Scope string_scope.
Local Open Scope N_scope.
Local Open Scope list_scope.

(** ** Python [str]: a sequence of code points *)

Module PyStr.

Abbreviation str := (list N) (only parsing).

(** Source files are UTF-8; [utf8] decodes the bytes of a literal into
    the code points Python sees. *)
Fixpoint utf8 (bs : list N) : list N :=
  match bs with
  | [] => []
  | b :: rest =>
      if b <? 128 then b :: utf8 rest
      else if b <? 224 then
        match rest with
        | b1 :: rest' => ((b - 192) * 64 + (b1 - 128)) :: utf8 rest'
        | _ => []
        end
      else if b <? 240 then
        match rest with
        | b1 :: b2 :: rest' =>
            ((b - 224) * 4096 + (b1 - 128) * 64 + (b2 - 128)) :: utf8 rest'
        | _ => []
        end
      else
        match rest with
        | b1 :: b2 :: b3 :: rest' =>
            ((b - 240) * 262144 + (b1 - 128) * 4096 + (b2 - 128) * 64
             + (b3 - 128)) :: utf8 rest'
        | _ => []
        end
  end.

Definition lit (s : string) : list N :=
  utf8 (map N_of_ascii (list_ascii_of_string s)).

(** [bool(s)] for a string: non-empty. *)
Definition truthy (s : list N) : bool :=
  match s with [] => false | _ :: _ => true end.

(** [str.isspace] on one code point: the table of Unicode white space
    that CPython uses for [str.strip()] without argument. *)
Definition isspace (c : N) : bool :=
  ((9 <=? c) && (c <=? 13)) || ((28 <=? c) && (c <=? 32))
  || (c =? 133) || (c =? 160) || (c =? 5760)
  || ((8192 <=? c) && (c <=? 8202))
  || (c =? 8232) || (c =? 8233) || (c =? 8239) || (c =? 8287)
  || (c =? 12288).

Fixpoint lstrip (s : list N) : list N :=
  match s with
  | [] => []
  | c :: s' => if isspace c then lstrip s' else s
  end.

Definition rstrip (s : list N) : list N := rev (lstrip (rev s)).

(** [s.strip()] *)
Definition strip (s : list N) : list N := rstrip (lstrip s).

(** "Empty or made of white space only". *)
Definition blank (s : list N) : bool := forallb isspace s.

(** [sub in s] *)
Definition contains (sub s : list N) : Prop :=
  exists pre post, s = pre ++ sub ++ post.

(** [s.endswith(suffix)] *)
Definition endswith (suffix s : list N) : Prop :=
  exists pre, s = pre ++ suffix.

(** [str(n)] for a natural number, in decimal. *)
Definition decimal (n : N) : list N :=
  map N_of_ascii (list_ascii_of_string (NilZero.string_of_uint (N.to_uint n))).

(** [n] printed as by ["%0<width>d"]. *)
Definition zfill (width : nat) (n : N) : list N :=
  let d := decimal n in
  repeat 48 (width - length d)%nat ++ d.

End PyStr.
Import PyStr.

(** ** Module constants *)

Definition REFERENCE_MATERIALS : list (list N) :=
  [lit "Serway"; lit "Halliday"; lit "Mechanics"].

Definition nl : list N := [10].

(** ** [_fake_answer] *)

Definition NO_REF_SELECTED : list N := lit "선택된 교재 없음".
Definition ANSWER_SUFFIX : list N :=
  lit "→ 실제 모델 연동 시 여기에 근거 기반 답변을 생성하세요.".

Definition _fake_answer (question : list N) (ref : option (list N)) : list N :=
  let ref_text :=
    match ref with
    | Some r => if truthy r then r else NO_REF_SELECTED
    | None => NO_REF_SELECTED
    end in
  lit "질문 요약: " ++ question ++ nl ++ nl
  ++ lit "참고한 교재: " ++ ref_text ++ nl
  ++ ANSWER_SUFFIX.

(** ** [datetime] and [isoformat(timespec="seconds")] *)

Record datetime := Datetime {
  year : N; month : N; day : N;
  hour : N; minute : N; second : N; microsecond : N
}.

(** [dt.isoformat(timespec="seconds")] of a naive datetime:
    [YYYY-MM-DDTHH:MM:SS]; the microseconds are not printed. *)
Definition isoformat_seconds (dt : datetime) : str :=
  zfill 4 (year dt) ++ lit "-" ++ zfill 2 (month dt) ++ lit "-" ++ zfill 2 (day dt)
  ++ lit "T"
  ++ zfill 2 (hour dt) ++ lit ":" ++ zfill 2 (minute dt) ++ lit ":" ++ zfill 2 (second dt).

(** ** The page and the session *)

(** What a run of the script draws, in order. *)
Inductive element :=
| Subheader (body : str)
| Markdown (body : str)
| Html (body : str)                     (* st.markdown(..., unsafe_allow_html=True) *)
| ChatMessage (name : str) (body : str) (* with st.chat_message(name): st.markdown(body) *)
| ChatInput (placeholder : str)
| TextArea (label placeholder : str)
| Button (label : str)
| Warning (body : str)
| Success (body : str).

(** A stored record is a Python dict from field name to string. *)
Abbreviation dict := (gmap string (list N)) (only parsing).

Record world := World {
  session_state : gmap string (list (gmap string (list N)));
  page : list element
}.

(** ** The script monad: state, page output, uncaught exceptions

    [None] is an exception leaving the script ([AttributeError] for a
    missing session attribute, [KeyError] for a missing dict key). *)

Definition script (A : Type) : Type := world -> option (A * world).

Definition ret {A} (a : A) : script A := fun w => Some (a, w).

Definition bind {A B} (m : script A) (k : A -> script B) : script B :=
  fun w => match m w with
           | Some (a, w') => k a w'
           | None => None
           end.

#[global] Instance script_ret : MRet script := @ret.
#[global] Instance script_bind : MBind script := fun A B k m => bind m k.

(** [key in st.session_state] *)
Definition has_attr (key : string) : script bool :=
  fun w => Some (bool_decide (is_Some (session_state w !! key)), w).

(** [st.session_state.<key> = v] *)
Definition set_attr (key : string) (v : list dict) : script unit :=
  fun w => Some (tt, World (<[key := v]> (session_state w)) (page w)).

(** [st.session_state.<key>] *)
Definition get_attr (key : string) : script (list dict) :=
  fun w => match session_state w !! key with
           | Some l => Some (l, w)
           | None => None
           end.

(** [st.session_state.<key>.append(x)]: the list stored under [key] is
    extended in place. *)
Definition append (key : string) (x : dict) : script unit :=
  l ← get_attr key; set_attr key (l ++ [x]).

(** [d[key]] *)
Definition getitem (d : dict) (key : string) : script str :=
  fun w => match d !! key with
           | Some v => Some (v, w)
           | None => None
           end.

(** One Streamlit drawing call. *)
Definition emit (e : element) : script unit :=
  fun w => Some (tt, World (session_state w) (page w ++ [e])).

(** [for x in xs: body(x)] *)
Fixpoint for_each {A} (xs : list A) (body : A -> script unit) : script unit :=
  match xs with
  | [] => ret tt
  | x :: xs' => body x ;; for_each xs' body
  end.

(** ** [_init_state] *)

Definition _init_state : script unit :=
  (b ← has_attr "chat_history";
   if negb b then set_attr "chat_history" [] else ret tt) ;;
  (b ← has_attr "ideas";
   if negb b then set_attr "ideas" [] else ret tt) ;;
  (b ← has_attr "feedback";
   if negb b then set_attr "feedback" [] else ret tt).

(** ** [_render_chat] *)

Definition chat_entry (role content : str) : dict :=
  {[ "role" := role; "content" := content ]}.

(** [prompt] is what [st.chat_input] returned in this run: [None] when
    nothing was sent. *)
Definition _render_chat (selected_ref : option str) (prompt : option str)
  : script unit :=
  emit (Subheader (lit "수준 맞춤형 튜터에게 질문하기")) ;;
  history ← get_attr "chat_history";
  for_each history (fun msg =>
    role ← getitem msg "role";
    content ← getitem msg "content";
    emit (ChatMessage role content)) ;;
  emit (ChatInput (lit "궁금한 내용을 입력하세요")) ;;
  match prompt with
  | Some prompt =>
      if truthy prompt then
        append "chat_history" (chat_entry (lit "user") prompt) ;;
        emit (ChatMessage (lit "user") prompt) ;;
        let answer := _fake_answer prompt selected_ref in
        append "chat_history" (chat_entry (lit "assistant") answer) ;;
        emit (ChatMessage (lit "assistant") answer)
      else ret tt
  | None => ret tt
  end.

(** ** [_render_idea_panel] *)

Definition NO_REF : str := lit "참고 교재 없음".
Definition EMPTY_WARNING : str := lit "내용을 입력해 주세요.".

(** [idea] is the content of the text area, [clicked] what [st.button]
    returned, [utcnow] the clock read by [datetime.utcnow()]. *)
Definition _render_idea_panel (selected_ref : option str)
    (idea : str) (clicked : bool) (utcnow : datetime) : script unit :=
  emit (Subheader (lit "창의·비판 아이디어 제출")) ;;
  emit (TextArea (lit "수업 개선 아이디어를 적어주세요")
                 (lit "예) 토론형 과제 변형 제안 ...")) ;;
  emit (Button (lit "아이디어 제출")) ;;
  (if clicked then
     if negb (truthy (strip idea)) then
       emit (Warning EMPTY_WARNING)
     else
       append "ideas"
         {[ "text" := strip idea;
            "ref" := match selected_ref with
                     | Some r => if truthy r then r else NO_REF
                     | None => NO_REF
                     end;
            "ts" := isoformat_seconds utcnow ]} ;;
       emit (Success (lit "아이디어가 저장되었습니다."))
   else ret tt) ;;
  ideas ← get_attr "ideas";
  match ideas with
  | _ :: _ =>
      emit (Markdown (lit "#### 제출된 아이디어")) ;;
      for_each (rev ideas) (fun item =>
        let ref := default NO_REF (item !! "ref") in
        ts ← getitem item "ts";
        text ← getitem item "text";
        emit (Markdown (lit "- (" ++ ts ++ lit " UTC) " ++ text ++ lit "  " ++ nl
                        ++ lit "  참고: " ++ ref)))
  | [] => ret tt
  end.

(** ** [_render_feedback_panel] *)

Definition quote : str := [34].

Definition DIVIDER : str :=
  nl ++ lit "    <div style=" ++ quote ++ nl
  ++ lit "        height: 40px;" ++ nl
  ++ lit "        background-color: #22c55e;" ++ nl
  ++ lit "        border-radius: 8px;" ++ nl
  ++ lit "        margin: 1.5rem 0 1.8rem 0;" ++ nl
  ++ lit "    " ++ quote ++ lit "></div>" ++ nl
  ++ lit "    ".

Definition _render_feedback_panel (feedback : str) (clicked : bool)
    (utcnow : datetime) : script unit :=
  emit (Html DIVIDER) ;;
  emit (Subheader (lit "개발자에게 의견 보내기")) ;;
  emit (TextArea (lit "의견을 입력해주세요")
                 (lit "예) 버그 리포트, 기능 제안, 개선 사항 ...")) ;;
  emit (Button (lit "의견 보내기")) ;;
  (if clicked then
     if negb (truthy (strip feedback)) then
       emit (Warning EMPTY_WARNING)
     else
       append "feedback"
         {[ "text" := strip feedback;
            "ts" := isoformat_seconds utcnow ]} ;;
       emit (Success (lit "의견이 전송되었습니다."))
   else ret tt) ;;
  entries ← get_attr "feedback";
  match entries with
  | _ :: _ =>
      emit (Markdown (lit "#### 보낸 의견")) ;;
      for_each (rev entries) (fun item =>
        ts ← getitem item "ts";
        text ← getitem item "text";
        emit (Markdown (lit "- (" ++ ts ++ lit " UTC) " ++ text)))
  | [] => ret tt
  end.

(** ** [main]: one run of the script

    What the widgets return in one run.  The layout calls of [main]
    (page configuration, style sheet, columns, title, caption, the
    drawing of the select box, the info box) neither read nor write
    [st.session_state]; the run below keeps the calls that do, in the
    order [main] makes them. *)

Record inputs := Inputs {
  selected_ref : option str;       (* st.selectbox *)
  prompt : option str;             (* st.chat_input *)
  idea : str;                      (* st.text_area of the idea panel *)
  idea_clicked : bool;             (* st.button of the idea panel *)
  idea_clock : datetime;
  feedback : str;                  (* st.text_area of the feedback panel *)
  feedback_clicked : bool;         (* st.button of the feedback panel *)
  feedback_clock : datetime
}.

(** [options=[None] + REFERENCE_MATERIALS] *)
Definition selectbox_options : list (option str) :=
  None :: map Some REFERENCE_MATERIALS.

Definition main (i : inputs) : script unit :=
  _init_state ;;
  _render_chat (selected_ref i) (prompt i) ;;
  _render_idea_panel (selected_ref i) (idea i) (idea_clicked i) (idea_clock i) ;;
  _render_feedback_panel (feedback i) (feedback_clicked i) (feedback_clock i).

(** The session after one run on a fresh page, and after a sequence of
    runs (Streamlit reruns the script at every interaction and keeps
    [st.session_state] between runs). *)
Definition rerun (s : gmap string (list dict)) (i : inputs)
  : option (gmap string (list dict)) :=
  match main i (World s []) with
  | Some (_, w) => Some (session_state w)
  | None => None
  end.

Fixpoint reruns (s : gmap string (list dict)) (ins : list inputs)
  : option (gmap string (list dict)) :=
  match ins with
  | [] => Some s
  | i :: ins' =>
      match rerun s i with
      | Some s' => reruns s' ins'
      | None => None
      end
  end.

(** ** Vocabulary of the statements *)

(** [d] has every key of [ks]. *)
Definition has_keys (ks : list string) (d : dict) : bool :=
  forallb (fun k => bool_decide (is_Some (d !! k))) ks.

Definition records_ok (ks : list string) (o : option (list dict)) : bool :=
  match o with
  | Some l => forallb (has_keys ks) l
  | None => false
  end.

(** The session a run can meet after [_init_state]: the three lists are
    there and every record has the fields the panels read. *)
Definition wf_session (s : gmap string (list dict)) : bool :=
  records_ok ["role"; "content"] (s !! "chat_history")
  && records_ok ["ts"; "text"] (s !! "ideas")
  && records_ok ["ts"; "text"] (s !! "feedback").

Definition field (d : dict) (k : string) : str := default [] (d !! k).

(** The records a run appends. *)
Definition chat_turn (ref : option str) (prompt : option str) : list dict :=
  match prompt with
  | Some p =>
      if truthy p
      then [chat_entry (lit "user") p;
            chat_entry (lit "assistant") (_fake_answer p ref)]
      else []
  | None => []
  end.

Definition idea_record (ref : option str) (text : str) (now : datetime) : dict :=
  {[ "text" := strip text;
     "ref" := match ref with
              | Some r => if truthy r then r else NO_REF
              | None => NO_REF
              end;
     "ts" := isoformat_seconds now ]}.

Definition idea_turn (ref : option str) (text : str) (clicked : bool)
    (now : datetime) : list dict :=
  if clicked && truthy (strip text) then [idea_record ref text now] else [].

Definition feedback_record (text : str) (now : datetime) : dict :=
  {[ "text" := strip text; "ts" := isoformat_seconds now ]}.

Definition feedback_turn (text : str) (clicked : bool) (now : datetime)
  : list dict :=
  if clicked && truthy (strip text) then [feedback_record text now] else [].

(** The lines the panels draw for one stored record. *)
Definition chat_line (msg : dict) : element :=
  ChatMessage (field msg "role") (field msg "content").

Definition idea_line (item : dict) : element :=
  Markdown (lit "- (" ++ field item "ts" ++ lit " UTC) " ++ field item "text"
            ++ lit "  " ++ nl ++ lit "  참고: " ++ default NO_REF (item !! "ref")).

Definition feedback_line (item : dict) : element :=
  Markdown (lit "- (" ++ field item "ts" ++ lit " UTC) " ++ field item "text").

(** The note drawn under a submit button. *)
Definition notice (clicked : bool) (text : str) (ok : str) : list element :=
  if clicked then
    if truthy (strip text) then [Success ok] else [Warning EMPTY_WARNING]
  else [].

(** A list of records under its heading, most recent first; nothing is
    drawn for an empty list. *)
Definition listing (heading : str) (line : dict -> element) (l : list dict)
  : list element :=
  match l with
  | [] => []
  | _ :: _ => Markdown heading :: map line (rev l)
  end.

(** ** Pages and sessions of the statements *)

(** What [_render_chat] draws over a stored history [h]. *)
Definition chat_page (ref prompt : option str) (h : list dict) : list element :=
  Subheader (lit "수준 맞춤형 튜터에게 질문하기")
  :: map chat_line h
  ++ ChatInput (lit "궁금한 내용을 입력하세요")
  :: map chat_line (chat_turn ref prompt).

(** What [_render_idea_panel] draws when the list of ideas is [l] after
    the submission has been handled. *)
Definition idea_page (text : str) (clicked : bool) (l : list dict)
  : list element :=
  [Subheader (lit "창의·비판 아이디어 제출");
   TextArea (lit "수업 개선 아이디어를 적어주세요") (lit "예) 토론형 과제 변형 제안 ...");
   Button (lit "아이디어 제출")]
  ++ notice clicked text (lit "아이디어가 저장되었습니다.")
  ++ listing (lit "#### 제출된 아이디어") idea_line l.

Definition feedback_page (text : str) (clicked : bool) (l : list dict)
  : list element :=
  [Html DIVIDER;
   Subheader (lit "개발자에게 의견 보내기");
   TextArea (lit "의견을 입력해주세요")
            (lit "예) 버그 리포트, 기능 제안, 개선 사항 ...");
   Button (lit "의견 보내기")]
  ++ notice clicked text (lit "의견이 전송되었습니다.")
  ++ listing (lit "#### 보낸 의견") feedback_line l.

(** [if key not in st.session_state: st.session_state.<key> = []] *)
Definition init_attr (key : string) (s : gmap string (list dict))
  : gmap string (list dict) :=
  match s !! key with
  | Some _ => s
  | None => <[key := []]> s
  end.

(** The session of a browser tab that has just been opened, once
    [_init_state] has run. *)
Definition fresh : gmap string (list dict) :=
  {[ "chat_history" := []; "ideas" := []; "feedback" := [] ]}.

(** The records one run of [main] appends to each list. *)
Definition chat_turn_of (i : inputs) : list dict :=
  chat_turn (selected_ref i) (prompt i).

Definition idea_turn_of (i : inputs) : list dict :=
  idea_turn (selected_ref i) (idea i) (idea_clicked i) (idea_clock i).

Definition feedback_turn_of (i : inputs) : list dict :=
  feedback_turn (feedback i) (feedback_clicked i) (feedback_clock i).

(** The session after one run of [main] on a well-formed session. *)
Definition after_run (i : inputs) (s : gmap string (list dict))
  : gmap string (list dict) :=
  <["feedback" := default [] (s !! "feedback") ++ feedback_turn_of i]>
  (<["ideas" := default [] (s !! "ideas") ++ idea_turn_of i]>
  (<["chat_history" := default [] (s !! "chat_history") ++ chat_turn_of i]> s)).

(** A run whose chat input is taken ([if prompt:]), and one whose idea
    is stored. *)
Definition chat_accepted (i : inputs) : bool :=
  match prompt i with
  | Some p => truthy p
  | None => false
  end.

Definition idea_accepted (i : inputs) : bool :=
  idea_clicked i && truthy (strip (idea i)).

(** A history made of pairs: a user message, then an assistant message. *)
Fixpoint alternates (h : list dict) : bool :=
  match h with
  | [] => true
  | u :: a :: h' =>
      bool_decide (u !! "role" = Some (lit "user"))
      && bool_decide (a !! "role" = Some (lit "assistant"))
      && alternates h'
  | [_] => false
  end.

(** A session with two ideas and two opinions, in the order of
    submission. *)
Definition two_each : gmap string (list dict) :=
  {[ "chat_history" := [];
     "ideas" := [idea_record None (lit "first") (Datetime 2026 11 4 9 0 0 0);
                 idea_record None (lit "second") (Datetime 2026 11 4 9 1 0 0)];
     "feedback" := [feedback_record (lit "one") (Datetime 2026 11 4 9 2 0 0);
                    feedback_record (lit "two") (Datetime 2026 11 4 9 3 0 0)] ]}.

(** [dt.replace(microsecond=us)] *)
Definition replace_microsecond (dt : datetime) (us : N) : datetime :=
  Datetime (year dt) (month dt) (day dt) (hour dt) (minute dt) (second dt) us.

(** ** The select box of [main] *)

(** [format_func=lambda x: x if x else "교재를 선택하세요"] *)
Definition format_func (x : option str) : str :=
  match x with
  | Some name => if truthy name then name else lit "교재를 선택하세요"
  | None => lit "교재를 선택하세요"
  end.

(** ** Further vocabulary *)

(** A run whose feedback is stored. *)
Definition feedback_accepted (i : inputs) : bool :=
  feedback_clicked i && truthy (strip (feedback i)).

(** The elements drawn by [with st.chat_message(...)]. *)
Definition is_chat_message (e : element) : bool :=
  match e with
  | ChatMessage _ _ => true
  | _ => false
  end.

(** A text that neither starts nor ends with white space. *)
Definition trimmed (t : str) : bool :=
  match t with
  | [] => true
  | c :: _ => negb (isspace c) && negb (isspace (List.last t c))
  end.

(** The ranges of the fields of a Python [datetime]. *)
Definition valid_datetime (dt : datetime) : bool :=
  (1 <=? year dt) && (year dt <=? 9999)
  && (1 <=? month dt) && (month dt <=? 12)
  && (1 <=? day dt) && (day dt <=? 31)
  && (hour dt <? 24) && (minute dt <? 60) && (second dt <? 60)
  && (microsecond dt <? 1000000).

(** The number a string of decimal digits stands for. *)
Definition digits_value (s : str) : N :=
  fold_left (fun acc c => acc * 10 + (c - 48)) s 0.


(** * Properties *)

(** ** The embedding on examples *)

Example lit_ascii : lit "Serway" = [83; 101; 114; 119; 97; 121].
Proof. reflexivity. Qed.

Example lit_hangul : NO_REF_SELECTED = [49440; 53469; 46108; 32; 44368; 51116; 32; 50630; 51020].
Proof. reflexivity. Qed.

Example zfill_ex : zfill 2 7 = lit "07" /\ zfill 4 2026 = lit "2026".
Proof. split; reflexivity. Qed.

(** ** Strings *)

Section Strip.

Lemma lstrip_blank s : blank s = true -> lstrip s = [].
Proof.
  induction s as [|c s IH]; simpl; [done|].
  intros [Hc Hs]%andb_prop. rewrite Hc. auto.
Qed.

Lemma lstrip_nil s : lstrip s = [] -> blank s = true.
Proof.
  induction s as [|c s IH]; simpl; [done|].
  destruct (isspace c); [auto | discriminate].
Qed.

(** What [lstrip] leaves is a suffix of the string, and the part cut
    off is white space. *)
Lemma lstrip_suffix s : exists pre, s = pre ++ lstrip s /\ blank pre = true.
Proof.
  induction s as [|c s [pre [Hs Hpre]]]; simpl.
  - by exists [].
  - destruct (isspace c) eqn:Hc.
    + exists (c :: pre). simpl. rewrite Hc, Hpre. split; [congruence | done].
    + by exists [].
Qed.

Lemma blank_app s t : blank (s ++ t) = blank s && blank t.
Proof. apply forallb_app. Qed.

Lemma blank_rev s : blank (rev s) = blank s.
Proof.
  induction s as [|c s IH]; simpl; [done|].
  rewrite blank_app, IH. simpl. rewrite andb_true_r. apply andb_comm.
Qed.

Lemma strip_blank s : blank s = true -> strip s = [].
Proof.
  intros H. unfold strip, rstrip. by rewrite (lstrip_blank _ H).
Qed.

Lemma strip_nil s : strip s = [] -> blank s = true.
Proof.
  unfold strip, rstrip. intros H.
  destruct (lstrip_suffix s) as [pre [Hs Hpre]].
  assert (Hl : blank (lstrip s) = true).
  { rewrite <- blank_rev. apply lstrip_nil.
    apply (f_equal (@rev N)) in H. by rewrite rev_involutive in H. }
  rewrite Hs, blank_app, Hpre, Hl. done.
Qed.

Lemma truthy_strip s : truthy (strip s) = negb (blank s).
Proof.
  destruct (blank s) eqn:Hb.
  - by rewrite (strip_blank _ Hb).
  - destruct (strip s) eqn:Hs; [|done].
    apply strip_nil in Hs. congruence.
Qed.

Lemma truthy_nonempty (s : list N) : truthy s = true <-> s <> [].
Proof. by destruct s. Qed.

End Strip.

(** ** Running the primitives of a script *)

Section Script.

Lemma bind_run {A B} (m : script A) (k : A -> script B) w :
  (m ≫= k) w = match m w with Some (a, w') => k a w' | None => None end.
Proof. reflexivity. Qed.

Lemma run_emit e w :
  emit e w = Some (tt, World (session_state w) (page w ++ [e])).
Proof. reflexivity. Qed.

Lemma run_has_attr k w :
  has_attr k w = Some (bool_decide (is_Some (session_state w !! k)), w).
Proof. reflexivity. Qed.

Lemma run_set_attr k v w :
  set_attr k v w = Some (tt, World (<[k := v]> (session_state w)) (page w)).
Proof. reflexivity. Qed.

Lemma run_get_attr k l w :
  session_state w !! k = Some l -> get_attr k w = Some (l, w).
Proof. intros H. unfold get_attr. by rewrite H. Qed.

Lemma run_append k x l w :
  session_state w !! k = Some l ->
  append k x w
  = Some (tt, World (<[k := l ++ [x]]> (session_state w)) (page w)).
Proof.
  intros H. unfold append. rewrite bind_run, (run_get_attr _ _ _ H).
  apply run_set_attr.
Qed.

Lemma run_getitem (d : gmap string (list N)) k v w :
  d !! k = Some v -> getitem d k w = Some (v, w).
Proof. intros H. unfold getitem. by rewrite H. Qed.

(** A loop whose body draws one element per item draws them in order
    and leaves the session alone. *)
Lemma run_for_each {A} (xs : list A) (body : A -> script unit)
    (line : A -> element) w :
  Forall (fun x => forall w', body x w' = emit (line x) w') xs ->
  for_each xs body w
  = Some (tt, World (session_state w) (page w ++ map line xs)).
Proof.
  intros H. revert w.
  induction H as [|x xs Hx _ IH]; intros w; simpl.
  - rewrite app_nil_r. by destruct w.
  - rewrite bind_run, Hx, run_emit, IH. simpl.
    by rewrite <- app_assoc.
Qed.

Lemma has_keys_lookup ks (d : gmap string (list N)) k :
  has_keys ks d = true -> k ∈ ks -> d !! k = Some (field d k).
Proof.
  unfold has_keys, field. rewrite forallb_forall.
  intros H Hk. apply list_elem_of_In, H, bool_decide_eq_true in Hk.
  destruct Hk as [v ->]. done.
Qed.

Lemma Forall_forallb {A} (p : A -> bool) (l : list A) :
  forallb p l = true -> Forall (fun x => p x = true) l.
Proof.
  induction l as [|x l IH]; simpl; [constructor|].
  intros [Hx Hl]%andb_prop. constructor; auto.
Qed.

Lemma forallb_rev {A} (p : A -> bool) (l : list A) :
  forallb p (rev l) = forallb p l.
Proof.
  induction l as [|x l IH]; simpl; [done|].
  rewrite forallb_app, IH. simpl. rewrite andb_true_r. apply andb_comm.
Qed.

End Script.

(** ** What each handler does to the session and the page *)

Section Handlers.

Implicit Types (w : world) (h l : list (gmap string (list N))).

Lemma chat_line_entry role content :
  chat_line (chat_entry role content) = ChatMessage role content.
Proof. reflexivity. Qed.

Lemma run_render_chat ref prompt w h :
  session_state w !! "chat_history" = Some h ->
  forallb (has_keys ["role"; "content"]) h = true ->
  _render_chat ref prompt w
  = Some (tt, World (<["chat_history" := h ++ chat_turn ref prompt]> (session_state w))
                    (page w ++ chat_page ref prompt h)).
Proof.
  intros Hh Hok. unfold _render_chat, chat_page.
  rewrite bind_run, run_emit, bind_run.
  erewrite run_get_attr by exact Hh.
  rewrite bind_run.
  rewrite (run_for_each h _ chat_line).
  2:{ eapply Forall_impl; [apply Forall_forallb, Hok|].
      intros msg Hmsg w'.
      rewrite bind_run.
      erewrite run_getitem by (apply (has_keys_lookup _ _ _ Hmsg); set_solver).
      rewrite bind_run.
      erewrite run_getitem by (apply (has_keys_lookup _ _ _ Hmsg); set_solver).
      done. }
  cbn [session_state page].
  rewrite bind_run, run_emit. cbn [session_state page].
  destruct prompt as [p|]; [destruct (truthy p) eqn:Hp|]; unfold chat_turn;
    rewrite ?Hp.
  - rewrite bind_run. erewrite run_append by exact Hh.
    rewrite bind_run, run_emit. cbn [session_state page].
    rewrite bind_run. erewrite run_append by apply lookup_insert_eq.
    rewrite run_emit. cbn [session_state page].
    rewrite insert_insert_eq, <- !app_assoc. simpl.
    by rewrite ?chat_line_entry, <- ?app_assoc.
  - rewrite app_nil_r, insert_id by done. simpl.
    rewrite <- !app_assoc. simpl. by destruct w.
  - rewrite app_nil_r, insert_id by done. simpl.
    rewrite <- !app_assoc. simpl. by destruct w.
Qed.

Lemma idea_record_keys ref text now :
  has_keys ["ts"; "text"] (idea_record ref text now) = true.
Proof. reflexivity. Qed.

Lemma feedback_record_keys text now :
  has_keys ["ts"; "text"] (feedback_record text now) = true.
Proof. reflexivity. Qed.

Lemma idea_turn_keys ref text clicked now :
  forallb (has_keys ["ts"; "text"]) (idea_turn ref text clicked now) = true.
Proof. unfold idea_turn. by destruct (clicked && truthy (strip text)). Qed.

Lemma feedback_turn_keys text clicked now :
  forallb (has_keys ["ts"; "text"]) (feedback_turn text clicked now) = true.
Proof. unfold feedback_turn. by destruct (clicked && truthy (strip text)). Qed.

(** The loop that lists the ideas, most recent first. *)
Lemma run_idea_listing l w :
  forallb (has_keys ["ts"; "text"]) l = true ->
  match l with
  | _ :: _ =>
      emit (Markdown (lit "#### 제출된 아이디어")) ;;
      for_each (rev l) (fun item =>
        let ref := default NO_REF (item !! "ref") in
        ts ← getitem item "ts";
        text ← getitem item "text";
        emit (Markdown (lit "- (" ++ ts ++ lit " UTC) " ++ text ++ lit "  " ++ nl
                        ++ lit "  참고: " ++ ref)))
  | [] => ret tt
  end w
  = Some (tt, World (session_state w)
                    (page w ++ listing (lit "#### 제출된 아이디어") idea_line l)).
Proof.
  intros Hok. destruct l as [|x l'].
  { simpl. rewrite app_nil_r. by destruct w. }
  cbv beta iota delta [listing].
  rewrite bind_run, run_emit.
  rewrite (run_for_each (rev (x :: l')) _ idea_line).
  - cbn [session_state page]. by rewrite <- app_assoc.
  - eapply Forall_impl; [apply Forall_forallb; by rewrite forallb_rev|].
    intros item Hitem w'. cbv zeta.
    rewrite bind_run.
    erewrite run_getitem by (apply (has_keys_lookup _ _ _ Hitem); set_solver).
    rewrite bind_run.
    erewrite run_getitem by (apply (has_keys_lookup _ _ _ Hitem); set_solver).
    done.
Qed.

Lemma run_feedback_listing l w :
  forallb (has_keys ["ts"; "text"]) l = true ->
  match l with
  | _ :: _ =>
      emit (Markdown (lit "#### 보낸 의견")) ;;
      for_each (rev l) (fun item =>
        ts ← getitem item "ts";
        text ← getitem item "text";
        emit (Markdown (lit "- (" ++ ts ++ lit " UTC) " ++ text)))
  | [] => ret tt
  end w
  = Some (tt, World (session_state w)
                    (page w ++ listing (lit "#### 보낸 의견") feedback_line l)).
Proof.
  intros Hok. destruct l as [|x l'].
  { simpl. rewrite app_nil_r. by destruct w. }
  cbv beta iota delta [listing].
  rewrite bind_run, run_emit.
  rewrite (run_for_each (rev (x :: l')) _ feedback_line).
  - cbn [session_state page]. by rewrite <- app_assoc.
  - eapply Forall_impl; [apply Forall_forallb; by rewrite forallb_rev|].
    intros item Hitem w'.
    rewrite bind_run.
    erewrite run_getitem by (apply (has_keys_lookup _ _ _ Hitem); set_solver).
    rewrite bind_run.
    erewrite run_getitem by (apply (has_keys_lookup _ _ _ Hitem); set_solver).
    done.
Qed.

Lemma run_render_idea_panel ref text clicked now w l :
  session_state w !! "ideas" = Some l ->
  forallb (has_keys ["ts"; "text"]) l = true ->
  _render_idea_panel ref text clicked now w
  = Some (tt, World (<["ideas" := l ++ idea_turn ref text clicked now]>
                       (session_state w))
                    (page w ++ idea_page text clicked
                                 (l ++ idea_turn ref text clicked now))).
Proof.
  intros Hl Hok. unfold _render_idea_panel, idea_page, notice, idea_turn.
  rewrite bind_run, run_emit, bind_run, run_emit, bind_run, run_emit.
  cbn [session_state page]. rewrite bind_run.
  destruct clicked; [destruct (truthy (strip text)) eqn:Ht|]; cbn [andb negb].
  - rewrite bind_run. erewrite run_append by exact Hl.
    rewrite run_emit. cbn [session_state page].
    rewrite bind_run. erewrite run_get_attr by apply lookup_insert_eq.
    fold (idea_record ref text now).
    rewrite run_idea_listing.
    2:{ rewrite forallb_app, Hok. cbn [forallb andb].
        by rewrite idea_record_keys. }
    cbn [session_state page]. by rewrite <- !app_assoc.
  - rewrite run_emit. cbn [session_state page].
    rewrite bind_run. erewrite run_get_attr by exact Hl.
    rewrite run_idea_listing by done.
    cbn [session_state page].
    rewrite app_nil_r, insert_id by done. by rewrite <- !app_assoc.
  - unfold ret at 1. rewrite bind_run.
    erewrite run_get_attr by exact Hl.
    rewrite run_idea_listing by done.
    cbn [session_state page].
    rewrite app_nil_r, insert_id by done. by rewrite <- !app_assoc.
Qed.

Lemma run_render_feedback_panel text clicked now w l :
  session_state w !! "feedback" = Some l ->
  forallb (has_keys ["ts"; "text"]) l = true ->
  _render_feedback_panel text clicked now w
  = Some (tt, World (<["feedback" := l ++ feedback_turn text clicked now]>
                       (session_state w))
                    (page w ++ feedback_page text clicked
                                 (l ++ feedback_turn text clicked now))).
Proof.
  intros Hl Hok. unfold _render_feedback_panel, feedback_page, notice, feedback_turn.
  rewrite bind_run, run_emit, bind_run, run_emit, bind_run, run_emit,
    bind_run, run_emit.
  cbn [session_state page]. rewrite bind_run.
  destruct clicked; [destruct (truthy (strip text)) eqn:Ht|]; cbn [andb negb].
  - rewrite bind_run. erewrite run_append by exact Hl.
    rewrite run_emit. cbn [session_state page].
    rewrite bind_run. erewrite run_get_attr by apply lookup_insert_eq.
    fold (feedback_record text now).
    rewrite run_feedback_listing.
    2:{ rewrite forallb_app, Hok. cbn [forallb andb].
        by rewrite feedback_record_keys. }
    cbn [session_state page]. by rewrite <- !app_assoc.
  - rewrite run_emit. cbn [session_state page].
    rewrite bind_run. erewrite run_get_attr by exact Hl.
    rewrite run_feedback_listing by done.
    cbn [session_state page].
    rewrite app_nil_r, insert_id by done. by rewrite <- !app_assoc.
  - unfold ret at 1. rewrite bind_run.
    erewrite run_get_attr by exact Hl.
    rewrite run_feedback_listing by done.
    cbn [session_state page].
    rewrite app_nil_r, insert_id by done. by rewrite <- !app_assoc.
Qed.

End Handlers.

(** ** [_init_state] and whole runs *)

Section Runs.

Implicit Types (w : world) (s : gmap string (list (gmap string (list N)))).

Lemma run_init_attr key w :
  (b ← has_attr key; if negb b then set_attr key [] else ret tt) w
  = Some (tt, World (init_attr key (session_state w)) (page w)).
Proof.
  rewrite bind_run, run_has_attr. unfold init_attr.
  destruct (session_state w !! key) as [l|] eqn:Hk.
  - rewrite bool_decide_eq_true_2 by eauto. simpl. by destruct w.
  - rewrite bool_decide_eq_false_2 by (intros [? ?]; congruence). done.
Qed.

Lemma run_init_state w :
  _init_state w
  = Some (tt, World (init_attr "feedback" (init_attr "ideas"
                       (init_attr "chat_history" (session_state w))))
                    (page w)).
Proof.
  unfold _init_state.
  rewrite bind_run, run_init_attr, bind_run, run_init_attr.
  cbn [session_state page]. rewrite run_init_attr. done.
Qed.

Lemma lookup_init_attr key s k :
  init_attr key s !! k
  = if decide (key = k) then Some (default [] (s !! key)) else s !! k.
Proof.
  unfold init_attr. destruct (s !! key) as [l|] eqn:Hk; case_decide; subst.
  - done.
  - done.
  - by rewrite lookup_insert_eq.
  - by rewrite lookup_insert_ne.
Qed.

Lemma init_attr_present key s : is_Some (s !! key) -> init_attr key s = s.
Proof. intros [l Hl]. unfold init_attr. by rewrite Hl. Qed.

Lemma wf_session_inv s :
  wf_session s = true ->
  exists c i f,
    s !! "chat_history" = Some c /\ s !! "ideas" = Some i
    /\ s !! "feedback" = Some f
    /\ forallb (has_keys ["role"; "content"]) c = true
    /\ forallb (has_keys ["ts"; "text"]) i = true
    /\ forallb (has_keys ["ts"; "text"]) f = true.
Proof.
  unfold wf_session, records_ok.
  intros [[Hc Hi]%andb_prop Hf]%andb_prop.
  destruct (s !! "chat_history") as [c|]; [|done].
  destruct (s !! "ideas") as [i|]; [|done].
  destruct (s !! "feedback") as [f|]; [|done].
  by exists c, i, f.
Qed.

Lemma wf_session_intro s c i f :
  s !! "chat_history" = Some c -> s !! "ideas" = Some i ->
  s !! "feedback" = Some f ->
  forallb (has_keys ["role"; "content"]) c = true ->
  forallb (has_keys ["ts"; "text"]) i = true ->
  forallb (has_keys ["ts"; "text"]) f = true ->
  wf_session s = true.
Proof.
  intros Hc Hi Hf Hco Hio Hfo. unfold wf_session, records_ok.
  by rewrite Hc, Hi, Hf, Hco, Hio, Hfo.
Qed.

Lemma init_state_wf s :
  wf_session s = true ->
  init_attr "feedback" (init_attr "ideas" (init_attr "chat_history" s)) = s.
Proof.
  intros (c & i & f & Hc & Hi & Hf & _)%wf_session_inv.
  rewrite (init_attr_present "chat_history") by eauto.
  rewrite (init_attr_present "ideas") by eauto.
  by rewrite (init_attr_present "feedback") by eauto.
Qed.

Lemma chat_turn_keys ref prompt :
  forallb (has_keys ["role"; "content"]) (chat_turn ref prompt) = true.
Proof.
  unfold chat_turn. destruct prompt as [p|]; [|done].
  by destruct (truthy p).
Qed.

Lemma run_main i w :
  wf_session (session_state w) = true ->
  exists pg, main i w = Some (tt, World (after_run i (session_state w)) pg).
Proof.
  intros Hwf. pose proof (init_state_wf _ Hwf) as Hinit.
  destruct (wf_session_inv _ Hwf) as (c & il & f & Hc & Hi & Hf & Hco & Hio & Hfo).
  unfold main, after_run, chat_turn_of, idea_turn_of, feedback_turn_of.
  rewrite bind_run, run_init_state, Hinit, bind_run.
  rewrite (run_render_chat _ _ _ c) by done.
  rewrite bind_run.
  rewrite (run_render_idea_panel _ _ _ _ _ il)
    by (cbn [session_state]; rewrite ?lookup_insert_ne by done; done).
  rewrite (run_render_feedback_panel _ _ _ _ f)
    by (cbn [session_state]; rewrite ?lookup_insert_ne by done; done).
  cbn [session_state page]. rewrite Hc, Hi, Hf. simpl. eauto.
Qed.

Lemma after_run_wf i s : wf_session s = true -> wf_session (after_run i s) = true.
Proof.
  intros (c & il & f & Hc & Hi & Hf & Hco & Hio & Hfo)%wf_session_inv.
  unfold after_run, chat_turn_of, idea_turn_of, feedback_turn_of.
  rewrite Hc, Hi, Hf. simpl.
  eapply wf_session_intro.
  - do 2 (rewrite lookup_insert_ne by done). apply lookup_insert_eq.
  - rewrite lookup_insert_ne by done. apply lookup_insert_eq.
  - apply lookup_insert_eq.
  - by rewrite forallb_app, Hco, chat_turn_keys.
  - by rewrite forallb_app, Hio, idea_turn_keys.
  - by rewrite forallb_app, Hfo, feedback_turn_keys.
Qed.

Lemma rerun_wf i s : wf_session s = true -> rerun s i = Some (after_run i s).
Proof.
  intros Hwf. unfold rerun.
  destruct (run_main i (World s []) Hwf) as [pg ->]. done.
Qed.

Lemma fresh_wf : wf_session fresh = true.
Proof. reflexivity. Qed.

Lemma init_empty :
  init_attr "feedback" (init_attr "ideas" (init_attr "chat_history" ∅)) = fresh.
Proof.
  apply map_eq. intros k. rewrite !lookup_init_attr, lookup_empty. unfold fresh.
  rewrite !lookup_insert, lookup_empty.
  repeat case_decide; simplify_eq/=; try done.
  by rewrite lookup_singleton_ne, lookup_empty.
Qed.

End Runs.

(** ** The handlers on a well-formed session *)

Section OnWellFormed.

Implicit Types (w : world).

Lemma render_chat_wf ref prompt w :
  wf_session (session_state w) = true ->
  exists h,
    session_state w !! "chat_history" = Some h
    /\ _render_chat ref prompt w
       = Some (tt, World (<["chat_history" := h ++ chat_turn ref prompt]>
                            (session_state w))
                         (page w ++ chat_page ref prompt h)).
Proof.
  intros (c & i & f & Hc & _ & _ & Hco & _)%wf_session_inv.
  exists c. split; [done|]. by apply run_render_chat.
Qed.

Lemma render_idea_panel_wf ref text clicked now w :
  wf_session (session_state w) = true ->
  exists l,
    session_state w !! "ideas" = Some l
    /\ _render_idea_panel ref text clicked now w
       = Some (tt, World (<["ideas" := l ++ idea_turn ref text clicked now]>
                            (session_state w))
                         (page w ++ idea_page text clicked
                                      (l ++ idea_turn ref text clicked now))).
Proof.
  intros (c & i & f & _ & Hi & _ & _ & Hio & _)%wf_session_inv.
  exists i. split; [done|]. by apply run_render_idea_panel.
Qed.

Lemma render_feedback_panel_wf text clicked now w :
  wf_session (session_state w) = true ->
  exists l,
    session_state w !! "feedback" = Some l
    /\ _render_feedback_panel text clicked now w
       = Some (tt, World (<["feedback" := l ++ feedback_turn text clicked now]>
                            (session_state w))
                         (page w ++ feedback_page text clicked
                                      (l ++ feedback_turn text clicked now))).
Proof.
  intros (c & i & f & _ & _ & Hf & _ & _ & Hfo)%wf_session_inv.
  exists f. split; [done|]. by apply run_render_feedback_panel.
Qed.

Lemma idea_turn_blank ref text clicked now :
  blank text = true -> idea_turn ref text clicked now = [].
Proof.
  intros Hb. unfold idea_turn. rewrite truthy_strip, Hb. by destruct clicked.
Qed.

Lemma feedback_turn_blank text clicked now :
  blank text = true -> feedback_turn text clicked now = [].
Proof.
  intros Hb. unfold feedback_turn. rewrite truthy_strip, Hb. by destruct clicked.
Qed.

Lemma idea_turn_accepted ref text now :
  blank text = false -> idea_turn ref text true now = [idea_record ref text now].
Proof. intros Hb. unfold idea_turn. by rewrite truthy_strip, Hb. Qed.

Lemma feedback_turn_accepted text now :
  blank text = false -> feedback_turn text true now = [feedback_record text now].
Proof. intros Hb. unfold feedback_turn. by rewrite truthy_strip, Hb. Qed.

Lemma notice_blank text ok :
  blank text = true -> notice true text ok = [Warning EMPTY_WARNING].
Proof. intros Hb. unfold notice. by rewrite truthy_strip, Hb. Qed.

Lemma notice_accepted text ok :
  blank text = false -> notice true text ok = [Success ok].
Proof. intros Hb. unfold notice. by rewrite truthy_strip, Hb. Qed.

End OnWellFormed.

(** * The chat panel *)

(** C1, as stated, at a concrete input: a prompt made of one space is
    white space only, yet sending it to the chat panel of a fresh
    session stores a user message and an answer. *)
Lemma chat_whitespace_prompt_stored :
  blank (lit " ") = true
  /\ session_state (World fresh []) !! "chat_history" = Some []
  /\ exists w',
      _render_chat None (Some (lit " ")) (World fresh []) = Some (tt, w')
      /\ session_state w' !! "chat_history"
         = Some [chat_entry (lit "user") (lit " ");
                 chat_entry (lit "assistant") (_fake_answer (lit " ") None)].
Proof.
  split; [reflexivity|]. split; [reflexivity|].
  eexists. split.
  - apply (run_render_chat None (Some (lit " ")) (World fresh []) []); reflexivity.
  - cbn [session_state]. apply lookup_insert_eq.
Qed.

(** C1 (amended): on a session that [_init_state] has prepared, the
    chat panel never raises, and it leaves the session as it was exactly
    when the chat input returned nothing or the empty string; then the
    page shows the heading, the history and the input box and nothing
    else.  Any non-empty prompt, white space included, changes the
    session. *)
Theorem chat_empty_prompt_ignored ref prompt w :
  wf_session (session_state w) = true ->
  exists w',
    _render_chat ref prompt w = Some (tt, w')
    /\ (session_state w' = session_state w <-> prompt = None \/ prompt = Some [])
    /\ (prompt = None \/ prompt = Some [] ->
        page w' = page w
                  ++ Subheader (lit "수준 맞춤형 튜터에게 질문하기")
                  :: map chat_line (default [] (session_state w !! "chat_history"))
                  ++ [ChatInput (lit "궁금한 내용을 입력하세요")]).
Proof.
  intros Hwf. destruct (render_chat_wf ref prompt w Hwf) as (h & Hh & Hrun).
  eexists. split; [exact Hrun|]. cbn [session_state page]. split; [split|].
  - intros Heq. destruct prompt as [[|c p]|]; auto.
    exfalso. apply (f_equal (fun s => s !! "chat_history")) in Heq.
    rewrite lookup_insert_eq, Hh in Heq. injection Heq as Heq.
    apply (f_equal length) in Heq. rewrite length_app in Heq. simpl in Heq. lia.
  - intros [-> | ->]; simpl; rewrite app_nil_r; by apply insert_id.
  - rewrite Hh. by intros [-> | ->].
Qed.

Lemma chat_empty_prompt_ignored_witness :
  wf_session (session_state (World fresh [])) = true
  /\ exists w',
      _render_chat (Some (lit "Serway")) (Some []) (World fresh []) = Some (tt, w')
      /\ session_state w' = fresh.
Proof.
  split; [reflexivity|].
  destruct (chat_empty_prompt_ignored (Some (lit "Serway")) (Some []) (World fresh []))
    as (w' & Hrun & Hiff & _); [reflexivity|].
  exists w'. split; [exact Hrun|]. apply Hiff. by right.
Defined.

(** * The placeholder answer *)

(** C2: [_fake_answer] is a function of the question and the selection
    alone, defined on every input; its result contains the question,
    contains the name of the selected reference, or the marker
    "선택된 교재 없음" when none is selected, and ends with the fixed
    explanation. *)
Theorem fake_answer_contents (q : list N) (r : option (list N)) :
  In r selectbox_options ->
  exists out,
    _fake_answer q r = out
    /\ contains q out
    /\ match r with
       | Some name => contains name out
       | None => contains (lit "선택된 교재 없음") out
       end
    /\ endswith (lit "→ 실제 모델 연동 시 여기에 근거 기반 답변을 생성하세요.") out.
Proof.
  intros Hr. eexists. split; [reflexivity|].
  assert (Href : match r with Some name => truthy name = true | None => True end).
  { destruct r as [name|]; [|done].
    destruct Hr as [?|[[= <-]|[[= <-]|[[= <-]|[]]]]]; done. }
  unfold _fake_answer. split; [|split].
  - exists (lit "질문 요약: "). eexists. reflexivity.
  - destruct r as [name|].
    + rewrite Href.
      exists (lit "질문 요약: " ++ q ++ nl ++ nl ++ lit "참고한 교재: ").
      exists (nl ++ ANSWER_SUFFIX). by rewrite <- !app_assoc.
    + exists (lit "질문 요약: " ++ q ++ nl ++ nl ++ lit "참고한 교재: ").
      exists (nl ++ ANSWER_SUFFIX). by rewrite <- !app_assoc.
  - eexists. rewrite !app_assoc. reflexivity.
Qed.

Lemma fake_answer_contents_witness :
  In (Some (lit "Halliday")) selectbox_options
  /\ exists out,
      _fake_answer (lit "What is Newton's second law?") (Some (lit "Halliday")) = out
      /\ contains (lit "What is Newton's second law?") out
      /\ contains (lit "Halliday") out
      /\ endswith (lit "→ 실제 모델 연동 시 여기에 근거 기반 답변을 생성하세요.") out.
Proof.
  assert (H : In (Some (lit "Halliday")) selectbox_options).
  { right. right. left. reflexivity. }
  split; [exact H|].
  exact (fake_answer_contents (lit "What is Newton's second law?")
           (Some (lit "Halliday")) H).
Defined.

(** ** The three lists along a sequence of runs *)

Section Histories.

Implicit Types (s : gmap string (list (gmap string (list N)))) (ins : list inputs).

Lemma lookup_after_run_chat i s :
  after_run i s !! "chat_history"
  = Some (default [] (s !! "chat_history") ++ chat_turn_of i).
Proof.
  unfold after_run. do 2 (rewrite lookup_insert_ne by done).
  apply lookup_insert_eq.
Qed.

Lemma lookup_after_run_ideas i s :
  after_run i s !! "ideas" = Some (default [] (s !! "ideas") ++ idea_turn_of i).
Proof.
  unfold after_run. rewrite lookup_insert_ne by done. apply lookup_insert_eq.
Qed.

Lemma lookup_after_run_feedback i s :
  after_run i s !! "feedback"
  = Some (default [] (s !! "feedback") ++ feedback_turn_of i).
Proof. unfold after_run. apply lookup_insert_eq. Qed.

Lemma reruns_histories ins : forall s,
  wf_session s = true ->
  exists s',
    reruns s ins = Some s'
    /\ wf_session s' = true
    /\ s' !! "chat_history"
       = Some (default [] (s !! "chat_history") ++ flat_map chat_turn_of ins)
    /\ s' !! "ideas"
       = Some (default [] (s !! "ideas") ++ flat_map idea_turn_of ins)
    /\ s' !! "feedback"
       = Some (default [] (s !! "feedback") ++ flat_map feedback_turn_of ins).
Proof.
  induction ins as [|i ins IH]; intros s Hwf.
  - exists s. simpl. rewrite !app_nil_r.
    destruct (wf_session_inv _ Hwf) as (c & il & f & -> & -> & -> & _).
    auto.
  - destruct (IH (after_run i s) (after_run_wf i s Hwf))
      as (s' & Hrun & Hwf' & Hc & Hi & Hf).
    exists s'. simpl. rewrite (rerun_wf i s Hwf).
    rewrite lookup_after_run_chat in Hc.
    rewrite lookup_after_run_ideas in Hi.
    rewrite lookup_after_run_feedback in Hf.
    simpl in Hc, Hi, Hf. rewrite <- !app_assoc in Hc, Hi, Hf.
    auto.
Qed.

Lemma reruns_app ins1 : forall ins2 s,
  reruns s (ins1 ++ ins2)
  = match reruns s ins1 with
    | Some s1 => reruns s1 ins2
    | None => None
    end.
Proof.
  induction ins1 as [|i ins1 IH]; intros ins2 s; simpl; [done|].
  destruct (rerun s i); [apply IH | done].
Qed.

(** The first run of a session starts from nothing and behaves as a run
    on the fresh session. *)
Lemma rerun_first i : rerun ∅ i = rerun fresh i.
Proof.
  unfold rerun, main.
  rewrite !bind_run, !run_init_state. cbn [session_state page].
  by rewrite init_empty, (init_state_wf fresh fresh_wf).
Qed.

Lemma chat_turn_of_length i :
  length (chat_turn_of i) = if chat_accepted i then 2%nat else 0%nat.
Proof.
  unfold chat_turn_of, chat_turn, chat_accepted.
  destruct (prompt i) as [p|]; [|done]. by destruct (truthy p).
Qed.

Lemma chat_turns_length ins :
  length (flat_map chat_turn_of ins)
  = (2 * length (List.filter chat_accepted ins))%nat.
Proof.
  induction ins as [|i ins IH]; simpl; [done|].
  rewrite length_app, chat_turn_of_length, IH.
  destruct (chat_accepted i); simpl; lia.
Qed.

Lemma chat_turns_alternate ins : alternates (flat_map chat_turn_of ins) = true.
Proof.
  induction ins as [|i ins IH]; simpl; [done|].
  unfold chat_turn_of at 1, chat_turn.
  destruct (prompt i) as [p|]; [|done].
  destruct (truthy p); [|done].
  cbn [app alternates]. rewrite IH.
  unfold chat_entry. rewrite !bool_decide_eq_true_2; done.
Qed.

End Histories.

(** C3: through any sequence of runs of the script on a session that
    starts with the empty history, the chat history is the
    concatenation, in order, of what the accepted submissions appended:
    the user message, then the answer generated for it.  So later runs
    only extend what earlier runs left, the history has twice as many
    entries as there were accepted submissions, and the roles go user,
    assistant, user, assistant. *)
Theorem chat_history_append_only (before after : list inputs) :
  exists s1 h1 s h,
    fresh !! "chat_history" = Some []
    /\ reruns fresh before = Some s1 /\ s1 !! "chat_history" = Some h1
    /\ reruns fresh (before ++ after) = Some s /\ s !! "chat_history" = Some h
    /\ h = h1 ++ flat_map chat_turn_of after
    /\ h = flat_map chat_turn_of (before ++ after)
    /\ length h = (2 * length (List.filter chat_accepted (before ++ after)))%nat
    /\ alternates h = true.
Proof.
  destruct (reruns_histories before fresh fresh_wf)
    as (s1 & Hrun1 & Hwf1 & Hc1 & _).
  destruct (reruns_histories after s1 Hwf1) as (s & Hrun & _ & Hc & _).
  rewrite Hc1 in Hc. simpl in Hc1, Hc.
  exists s1, (flat_map chat_turn_of before), s,
    (flat_map chat_turn_of before ++ flat_map chat_turn_of after).
  split; [reflexivity|]. split; [done|]. split; [done|].
  split; [by rewrite reruns_app, Hrun1|]. split; [done|]. split; [done|].
  rewrite <- flat_map_app. split; [done|]. split.
  - apply chat_turns_length.
  - apply chat_turns_alternate.
Qed.

(** * The idea and feedback panels *)

(** C4: when the submit button is pressed on a text that is empty or
    white space only, the idea panel, and likewise the feedback panel,
    returns without raising, leaves the whole session as it was (so the
    list keeps its length), and draws the warning, and no confirmation,
    between the button and the list. *)
Theorem blank_submission_rejected ref text now w :
  wf_session (session_state w) = true ->
  blank text = true ->
  (exists w' l,
      _render_idea_panel ref text true now w = Some (tt, w')
      /\ session_state w' = session_state w
      /\ session_state w !! "ideas" = Some l
      /\ session_state w' !! "ideas" = Some l
      /\ page w'
         = page w
           ++ [Subheader (lit "창의·비판 아이디어 제출");
               TextArea (lit "수업 개선 아이디어를 적어주세요")
                        (lit "예) 토론형 과제 변형 제안 ...");
               Button (lit "아이디어 제출");
               Warning (lit "내용을 입력해 주세요.")]
           ++ listing (lit "#### 제출된 아이디어") idea_line l)
  /\ (exists w' l,
      _render_feedback_panel text true now w = Some (tt, w')
      /\ session_state w' = session_state w
      /\ session_state w !! "feedback" = Some l
      /\ session_state w' !! "feedback" = Some l
      /\ page w'
         = page w
           ++ [Html DIVIDER;
               Subheader (lit "개발자에게 의견 보내기");
               TextArea (lit "의견을 입력해주세요")
                        (lit "예) 버그 리포트, 기능 제안, 개선 사항 ...");
               Button (lit "의견 보내기");
               Warning (lit "내용을 입력해 주세요.")]
           ++ listing (lit "#### 보낸 의견") feedback_line l).
Proof.
  intros Hwf Hb. split.
  - destruct (render_idea_panel_wf ref text true now w Hwf) as (l & Hl & Hrun).
    rewrite (idea_turn_blank _ _ _ _ Hb), app_nil_r in Hrun.
    rewrite insert_id in Hrun by done.
    eexists _, l. split; [exact Hrun|]. cbn [session_state page].
    repeat (split; [done|]).
    unfold idea_page. by rewrite (notice_blank _ _ Hb).
  - destruct (render_feedback_panel_wf text true now w Hwf) as (l & Hl & Hrun).
    rewrite (feedback_turn_blank _ _ _ Hb), app_nil_r in Hrun.
    rewrite insert_id in Hrun by done.
    eexists _, l. split; [exact Hrun|]. cbn [session_state page].
    repeat (split; [done|]).
    unfold feedback_page. by rewrite (notice_blank _ _ Hb).
Qed.

Lemma blank_submission_rejected_witness :
  wf_session (session_state (World fresh [])) = true
  /\ blank (lit "  ") = true
  /\ (exists w',
        _render_idea_panel None (lit "  ") true (Datetime 2026 11 4 9 5 7 0)
          (World fresh []) = Some (tt, w')
        /\ session_state w' = fresh)
  /\ (exists w',
        _render_feedback_panel (lit "  ") true (Datetime 2026 11 4 9 5 7 0)
          (World fresh []) = Some (tt, w')
        /\ session_state w' = fresh).
Proof.
  split; [reflexivity|]. split; [reflexivity|].
  destruct (blank_submission_rejected None (lit "  ") (Datetime 2026 11 4 9 5 7 0)
              (World fresh []))
    as [(w1 & l1 & H1 & E1 & _) (w2 & l2 & H2 & E2 & _)];
    [reflexivity | reflexivity |].
  split; [exists w1 | exists w2]; auto.
Defined.

(** C5, as stated, at a concrete input: the text made of one space has
    length 1, yet submitting it on a fresh session leaves the list of
    ideas empty. *)
Lemma idea_whitespace_not_stored :
  length (lit " ") = 1%nat
  /\ session_state (World fresh []) !! "ideas" = Some []
  /\ exists w',
      _render_idea_panel (Some (lit "Serway")) (lit " ") true
        (Datetime 2026 11 4 9 5 7 0) (World fresh []) = Some (tt, w')
      /\ session_state w' !! "ideas" = Some [].
Proof.
  split; [reflexivity|]. split; [reflexivity|].
  eexists. split.
  - apply (run_render_idea_panel _ _ _ _ (World fresh []) []); reflexivity.
  - cbn [session_state]. rewrite lookup_insert_eq. reflexivity.
Qed.

(** C5 (amended): when the submit button is pressed on a text that is
    not empty and not white space only, the idea panel appends exactly
    one record to the list of ideas.  Its text is the trimmed input,
    its reference is the selection of the select box at that moment, or
    the marker "참고 교재 없음" when nothing is selected, and its time
    stamp is the clock reading printed to the second: the microseconds
    of the clock have no influence on it. *)
Theorem idea_submission_stored ref text now w l :
  wf_session (session_state w) = true ->
  In ref selectbox_options ->
  session_state w !! "ideas" = Some l ->
  blank text = false ->
  exists w' record,
    _render_idea_panel ref text true now w = Some (tt, w')
    /\ session_state w' !! "ideas" = Some (l ++ [record])
    /\ length (l ++ [record]) = S (length l)
    /\ record !! "text" = Some (strip text)
    /\ record !! "ref" = Some (default (lit "참고 교재 없음") ref)
    /\ record !! "ts" = Some (isoformat_seconds now)
    /\ (forall us, isoformat_seconds (replace_microsecond now us)
                   = isoformat_seconds now).
Proof.
  intros Hwf Href Hl Hb.
  destruct (render_idea_panel_wf ref text true now w Hwf) as (l' & Hl' & Hrun).
  assert (l' = l) as -> by congruence.
  rewrite (idea_turn_accepted _ _ _ Hb) in Hrun.
  eexists _, (idea_record ref text now). split; [exact Hrun|].
  cbn [session_state]. split; [apply lookup_insert_eq|].
  split; [rewrite length_app; simpl; lia|].
  split; [reflexivity|]. split; [|split; [reflexivity|]].
  - destruct ref as [name|]; [|reflexivity].
    destruct Href as [?|[[= <-]|[[= <-]|[[= <-]|[]]]]]; done.
  - intros us. reflexivity.
Qed.

Lemma idea_submission_stored_witness :
  wf_session (session_state (World fresh [])) = true
  /\ In (Some (lit "Halliday")) selectbox_options
  /\ session_state (World fresh []) !! "ideas" = Some []
  /\ blank (lit " more labs ") = false
  /\ exists w' record,
      _render_idea_panel (Some (lit "Halliday")) (lit " more labs ") true
        (Datetime 2026 11 4 9 5 7 123456) (World fresh []) = Some (tt, w')
      /\ session_state w' !! "ideas" = Some [record]
      /\ record !! "text" = Some (lit "more labs")
      /\ record !! "ref" = Some (lit "Halliday")
      /\ record !! "ts" = Some (lit "2026-11-04T09:05:07").
Proof.
  assert (Hin : In (Some (lit "Halliday")) selectbox_options).
  { right. right. left. reflexivity. }
  split; [reflexivity|]. split; [exact Hin|]. split; [reflexivity|].
  split; [reflexivity|].
  destruct (idea_submission_stored (Some (lit "Halliday")) (lit " more labs ")
              (Datetime 2026 11 4 9 5 7 123456) (World fresh []) [])
    as (w' & record & Hrun & Hl & _ & Ht & Hr & Hts & _);
    [reflexivity | exact Hin | reflexivity | reflexivity |].
  exists w', record. auto.
Defined.

(** C6: whatever the idea panel, and likewise the feedback panel, is
    run on, what it draws after the form and the note under the button
    is the heading followed by one line per stored record, the records
    taken in the reverse of the order in which they were stored, the one
    just submitted first; nothing is drawn for an empty list. *)
Theorem listings_most_recent_first ref text clicked now w :
  wf_session (session_state w) = true ->
  (exists w' ideas,
      _render_idea_panel ref text clicked now w = Some (tt, w')
      /\ session_state w' !! "ideas" = Some ideas
      /\ ideas = default [] (session_state w !! "ideas")
                 ++ idea_turn ref text clicked now
      /\ page w'
         = page w
           ++ [Subheader (lit "창의·비판 아이디어 제출");
               TextArea (lit "수업 개선 아이디어를 적어주세요")
                        (lit "예) 토론형 과제 변형 제안 ...");
               Button (lit "아이디어 제출")]
           ++ notice clicked text (lit "아이디어가 저장되었습니다.")
           ++ match ideas with
              | [] => []
              | _ :: _ => Markdown (lit "#### 제출된 아이디어")
                          :: map idea_line (rev ideas)
              end)
  /\ (exists w' entries,
      _render_feedback_panel text clicked now w = Some (tt, w')
      /\ session_state w' !! "feedback" = Some entries
      /\ entries = default [] (session_state w !! "feedback")
                   ++ feedback_turn text clicked now
      /\ page w'
         = page w
           ++ [Html DIVIDER;
               Subheader (lit "개발자에게 의견 보내기");
               TextArea (lit "의견을 입력해주세요")
                        (lit "예) 버그 리포트, 기능 제안, 개선 사항 ...");
               Button (lit "의견 보내기")]
           ++ notice clicked text (lit "의견이 전송되었습니다.")
           ++ match entries with
              | [] => []
              | _ :: _ => Markdown (lit "#### 보낸 의견")
                          :: map feedback_line (rev entries)
              end).
Proof.
  intros Hwf. split.
  - destruct (render_idea_panel_wf ref text clicked now w Hwf) as (l & Hl & Hrun).
    eexists _, _. split; [exact Hrun|]. cbn [session_state page].
    split; [apply lookup_insert_eq|]. split; [by rewrite Hl | reflexivity].
  - destruct (render_feedback_panel_wf text clicked now w Hwf) as (l & Hl & Hrun).
    eexists _, _. split; [exact Hrun|]. cbn [session_state page].
    split; [apply lookup_insert_eq|]. split; [by rewrite Hl | reflexivity].
Qed.

Lemma listings_most_recent_first_witness :
  wf_session (session_state (World two_each [])) = true
  /\ (exists w',
        _render_idea_panel None [] false (Datetime 2026 11 4 10 0 0 0)
          (World two_each []) = Some (tt, w')
        /\ page w'
           = [Subheader (lit "창의·비판 아이디어 제출");
              TextArea (lit "수업 개선 아이디어를 적어주세요")
                       (lit "예) 토론형 과제 변형 제안 ...");
              Button (lit "아이디어 제출");
              Markdown (lit "#### 제출된 아이디어");
              idea_line (idea_record None (lit "second") (Datetime 2026 11 4 9 1 0 0));
              idea_line (idea_record None (lit "first") (Datetime 2026 11 4 9 0 0 0))])
  /\ (exists w',
        _render_feedback_panel [] false (Datetime 2026 11 4 10 0 0 0)
          (World two_each []) = Some (tt, w')
        /\ page w'
           = [Html DIVIDER;
              Subheader (lit "개발자에게 의견 보내기");
              TextArea (lit "의견을 입력해주세요")
                       (lit "예) 버그 리포트, 기능 제안, 개선 사항 ...");
              Button (lit "의견 보내기");
              Markdown (lit "#### 보낸 의견");
              feedback_line (feedback_record (lit "two") (Datetime 2026 11 4 9 3 0 0));
              feedback_line (feedback_record (lit "one") (Datetime 2026 11 4 9 2 0 0))]).
Proof.
  split; [reflexivity|].
  destruct (listings_most_recent_first None [] false (Datetime 2026 11 4 10 0 0 0)
              (World two_each []))
    as [(w1 & l1 & H1 & _ & E1 & P1) (w2 & l2 & H2 & _ & E2 & P2)]; [reflexivity|].
  split.
  - exists w1. split; [exact H1|]. rewrite P1, E1. reflexivity.
  - exists w2. split; [exact H2|]. rewrite P2, E2. reflexivity.
Defined.

(** * The session store *)

(** C7: [_init_state] never raises and draws nothing.  A list that is
    missing is created empty, a list that is there is kept as it is, so
    on a session that has nothing yet the three lists are empty
    afterwards; running [_init_state] again on its own result changes
    nothing. *)
Theorem init_state_idempotent w :
  exists w',
    _init_state w = Some (tt, w')
    /\ page w' = page w
    /\ session_state w' !! "chat_history"
       = Some (match session_state w !! "chat_history" with
               | Some history => history
               | None => []
               end)
    /\ session_state w' !! "ideas"
       = Some (match session_state w !! "ideas" with
               | Some ideas => ideas
               | None => []
               end)
    /\ session_state w' !! "feedback"
       = Some (match session_state w !! "feedback" with
               | Some entries => entries
               | None => []
               end)
    /\ _init_state w' = Some (tt, w')
    /\ _init_state (World ∅ (page w)) = Some (tt, World fresh (page w)).
Proof.
  eexists. split; [apply run_init_state|]. cbn [session_state page].
  split; [done|].
  assert (Hc : init_attr "feedback" (init_attr "ideas"
                 (init_attr "chat_history" (session_state w))) !! "chat_history"
               = Some (default [] (session_state w !! "chat_history"))).
  { rewrite !lookup_init_attr. repeat case_decide; simplify_eq/=; done. }
  assert (Hi : init_attr "feedback" (init_attr "ideas"
                 (init_attr "chat_history" (session_state w))) !! "ideas"
               = Some (default [] (session_state w !! "ideas"))).
  { rewrite !lookup_init_attr. repeat case_decide; simplify_eq/=; done. }
  assert (Hf : init_attr "feedback" (init_attr "ideas"
                 (init_attr "chat_history" (session_state w))) !! "feedback"
               = Some (default [] (session_state w !! "feedback"))).
  { rewrite !lookup_init_attr. repeat case_decide; simplify_eq/=; done. }
  split; [exact Hc|]. split; [exact Hi|]. split; [exact Hf|]. split.
  - rewrite run_init_state. cbn [session_state page].
    rewrite (init_attr_present "chat_history") by (rewrite Hc; eauto).
    rewrite (init_attr_present "ideas") by (rewrite Hi; eauto).
    rewrite (init_attr_present "feedback") by (rewrite Hf; eauto).
    done.
  - rewrite run_init_state. cbn [session_state page]. by rewrite init_empty.
Qed.

(** C8: on a session that [_init_state] has prepared, each panel
    returns without raising and changes at most its own list: the chat
    panel leaves the ideas and the feedback as they were, the idea
    panel the chat history and the feedback, the feedback panel the
    chat history and the ideas; no other attribute of the session
    changes either. *)
Theorem handlers_frame ref prompt idea_text idea_click fb_text fb_click now w :
  wf_session (session_state w) = true ->
  (exists w',
      _render_chat ref prompt w = Some (tt, w')
      /\ session_state w' !! "ideas" = session_state w !! "ideas"
      /\ session_state w' !! "feedback" = session_state w !! "feedback"
      /\ forall k, k <> "chat_history" ->
                   session_state w' !! k = session_state w !! k)
  /\ (exists w',
      _render_idea_panel ref idea_text idea_click now w = Some (tt, w')
      /\ session_state w' !! "chat_history" = session_state w !! "chat_history"
      /\ session_state w' !! "feedback" = session_state w !! "feedback"
      /\ forall k, k <> "ideas" ->
                   session_state w' !! k = session_state w !! k)
  /\ (exists w',
      _render_feedback_panel fb_text fb_click now w = Some (tt, w')
      /\ session_state w' !! "chat_history" = session_state w !! "chat_history"
      /\ session_state w' !! "ideas" = session_state w !! "ideas"
      /\ forall k, k <> "feedback" ->
                   session_state w' !! k = session_state w !! k).
Proof.
  intros Hwf. split; [|split].
  - destruct (render_chat_wf ref prompt w Hwf) as (h & _ & Hrun).
    eexists. split; [exact Hrun|]. cbn [session_state].
    split; [by rewrite lookup_insert_ne|]. split; [by rewrite lookup_insert_ne|].
    intros k Hk. by rewrite lookup_insert_ne.
  - destruct (render_idea_panel_wf ref idea_text idea_click now w Hwf)
      as (l & _ & Hrun).
    eexists. split; [exact Hrun|]. cbn [session_state].
    split; [by rewrite lookup_insert_ne|]. split; [by rewrite lookup_insert_ne|].
    intros k Hk. by rewrite lookup_insert_ne.
  - destruct (render_feedback_panel_wf fb_text fb_click now w Hwf)
      as (l & _ & Hrun).
    eexists. split; [exact Hrun|]. cbn [session_state].
    split; [by rewrite lookup_insert_ne|]. split; [by rewrite lookup_insert_ne|].
    intros k Hk. by rewrite lookup_insert_ne.
Qed.

Lemma handlers_frame_witness :
  wf_session (session_state (World two_each [])) = true
  /\ (exists w',
        _render_chat None (Some (lit "hi")) (World two_each []) = Some (tt, w')
        /\ session_state w' !! "ideas" = two_each !! "ideas"
        /\ session_state w' !! "feedback" = two_each !! "feedback")
  /\ (exists w',
        _render_idea_panel None (lit "third") true (Datetime 2026 11 4 10 0 0 0)
          (World two_each []) = Some (tt, w')
        /\ session_state w' !! "chat_history" = two_each !! "chat_history"
        /\ session_state w' !! "feedback" = two_each !! "feedback")
  /\ (exists w',
        _render_feedback_panel (lit "three") true (Datetime 2026 11 4 10 0 0 0)
          (World two_each []) = Some (tt, w')
        /\ session_state w' !! "chat_history" = two_each !! "chat_history"
        /\ session_state w' !! "ideas" = two_each !! "ideas").
Proof.
  split; [reflexivity|].
  destruct (handlers_frame None (Some (lit "hi")) (lit "third") true (lit "three")
              true (Datetime 2026 11 4 10 0 0 0) (World two_each []))
    as [(w1 & H1 & A1 & B1 & _) [(w2 & H2 & A2 & B2 & _) (w3 & H3 & A3 & B3 & _)]];
    [reflexivity|].
  split; [|split]; [exists w1 | exists w2 | exists w3]; auto.
Defined.

(** * Stored records *)

Section Records.

Lemma idea_record_ref ref text now :
  exists r,
    idea_record ref text now !! "ref" = Some r
    /\ r <> []
    /\ (ref = None -> r = lit "참고 교재 없음")
    /\ default NO_REF (idea_record ref text now !! "ref") = r.
Proof.
  eexists. split; [reflexivity|]. split; [|split; [|reflexivity]].
  - destruct ref as [[|c r]|]; done.
  - by intros ->.
Qed.

Lemma idea_turn_of_accepted i :
  idea_turn_of i
  = if idea_accepted i
    then [idea_record (selected_ref i) (idea i) (idea_clock i)]
    else [].
Proof. reflexivity. Qed.

End Records.

(** C9: in every session reached by running the script from a fresh
    session, the stored ideas are, in order, the records of the
    accepted idea submissions, and each of them has a ["ref"] entry
    holding a non-empty string: the marker "참고 교재 없음" when the
    select box had no selection at that submission.  The look-up made
    when an idea is drawn therefore finds the stored string and never
    falls back on its default. *)
Theorem idea_ref_never_missing (ins : list inputs) :
  exists s ideas,
    reruns fresh ins = Some s
    /\ s !! "ideas" = Some ideas
    /\ Forall2
         (fun i item =>
            exists r,
              item !! "ref" = Some r
              /\ r <> []
              /\ (selected_ref i = None -> r = lit "참고 교재 없음")
              /\ default NO_REF (item !! "ref") = r)
         (List.filter idea_accepted ins) ideas.
Proof.
  destruct (reruns_histories ins fresh fresh_wf) as (s & Hrun & _ & _ & Hi & _).
  exists s, (flat_map idea_turn_of ins). split; [done|]. split; [exact Hi|].
  clear. induction ins as [|i ins IH]; simpl; [constructor|].
  rewrite idea_turn_of_accepted. destruct (idea_accepted i); simpl; [|exact IH].
  constructor; [apply idea_record_ref | exact IH].
Qed.

(** C10: an accepted chat submission stores, as the content of the user
    message, the prompt exactly as it was sent, while an accepted idea
    or feedback submission stores the trimmed text. *)
Theorem chat_content_verbatim ref p text now w :
  wf_session (session_state w) = true ->
  truthy p = true ->
  blank text = false ->
  (exists w' h user answer,
      _render_chat ref (Some p) w = Some (tt, w')
      /\ session_state w !! "chat_history" = Some h
      /\ session_state w' !! "chat_history" = Some (h ++ [user; answer])
      /\ user !! "role" = Some (lit "user")
      /\ user !! "content" = Some p)
  /\ (exists w' l record,
      _render_idea_panel ref text true now w = Some (tt, w')
      /\ session_state w !! "ideas" = Some l
      /\ session_state w' !! "ideas" = Some (l ++ [record])
      /\ record !! "text" = Some (strip text))
  /\ (exists w' l record,
      _render_feedback_panel text true now w = Some (tt, w')
      /\ session_state w !! "feedback" = Some l
      /\ session_state w' !! "feedback" = Some (l ++ [record])
      /\ record !! "text" = Some (strip text)).
Proof.
  intros Hwf Hp Hb. split; [|split].
  - destruct (render_chat_wf ref (Some p) w Hwf) as (h & Hh & Hrun).
    unfold chat_turn in Hrun. rewrite Hp in Hrun.
    eexists _, h, _, _. split; [exact Hrun|]. split; [exact Hh|].
    cbn [session_state]. split; [apply lookup_insert_eq|].
    split; reflexivity.
  - destruct (render_idea_panel_wf ref text true now w Hwf) as (l & Hl & Hrun).
    rewrite (idea_turn_accepted _ _ _ Hb) in Hrun.
    eexists _, l, _. split; [exact Hrun|]. split; [exact Hl|].
    cbn [session_state]. split; [apply lookup_insert_eq | reflexivity].
  - destruct (render_feedback_panel_wf text true now w Hwf) as (l & Hl & Hrun).
    rewrite (feedback_turn_accepted _ _ Hb) in Hrun.
    eexists _, l, _. split; [exact Hrun|]. split; [exact Hl|].
    cbn [session_state]. split; [apply lookup_insert_eq | reflexivity].
Qed.

Lemma chat_content_verbatim_witness :
  wf_session (session_state (World fresh [])) = true
  /\ truthy (lit " hi ") = true
  /\ blank (lit " hi ") = false
  /\ strip (lit " hi ") = lit "hi"
  /\ (exists w' user answer,
        _render_chat None (Some (lit " hi ")) (World fresh []) = Some (tt, w')
        /\ session_state w' !! "chat_history" = Some [user; answer]
        /\ user !! "content" = Some (lit " hi "))
  /\ (exists w' record,
        _render_idea_panel None (lit " hi ") true (Datetime 2026 11 4 10 0 0 0)
          (World fresh []) = Some (tt, w')
        /\ session_state w' !! "ideas" = Some [record]
        /\ record !! "text" = Some (lit "hi"))
  /\ (exists w' record,
        _render_feedback_panel (lit " hi ") true (Datetime 2026 11 4 10 0 0 0)
          (World fresh []) = Some (tt, w')
        /\ session_state w' !! "feedback" = Some [record]
        /\ record !! "text" = Some (lit "hi")).
Proof.
  split; [reflexivity|]. split; [reflexivity|]. split; [reflexivity|].
  split; [reflexivity|].
  destruct (chat_content_verbatim None (lit " hi ") (lit " hi ")
              (Datetime 2026 11 4 10 0 0 0) (World fresh []))
    as [(w1 & h & u & a & H1 & Hh & Hh' & _ & Hu)
        [(w2 & l2 & r2 & H2 & Hl2 & Hl2' & Ht2) (w3 & l3 & r3 & H3 & Hl3 & Hl3' & Ht3)]];
    [reflexivity | reflexivity | reflexivity |].
  injection Hh as <-. injection Hl2 as <-. injection Hl3 as <-.
  split; [|split].
  - exists w1, u, a. auto.
  - exists w2, r2. auto.
  - exists w3, r3. auto.
Defined.

(** * Scenarios of the specification, by evaluation *)

(** The question "What is Newton's second law?" with "Halliday"
    selected: the history gains the user entry with that text, then the
    assistant entry with the generated answer. *)
Example scenario_newton :
  match _render_chat (Some (lit "Halliday"))
          (Some (lit "What is Newton's second law?")) (World fresh []) with
  | Some (_, w) =>
      map (fun msg => (field msg "role", field msg "content"))
        (default [] (session_state w !! "chat_history"))
  | None => []
  end
  = [(lit "user", lit "What is Newton's second law?");
     (lit "assistant",
      lit "질문 요약: What is Newton's second law?" ++ nl ++ nl
      ++ lit "참고한 교재: Halliday" ++ nl
      ++ lit "→ 실제 모델 연동 시 여기에 근거 기반 답변을 생성하세요.")].
Proof. vm_compute. reflexivity. Qed.

(** The idea "  ": the list of ideas is unchanged and the warning is
    shown. *)
Example scenario_blank_idea :
  match _render_idea_panel None (lit "  ") true (Datetime 2026 11 4 9 5 7 0)
          (World fresh []) with
  | Some (_, w) => Some (length <$> session_state w !! "ideas", last (page w))
  | None => None
  end
  = Some (Some 0%nat, Some (Warning (lit "내용을 입력해 주세요."))).
Proof. vm_compute. reflexivity. Qed.

(** The feedback "Add dark mode" with no prior feedback: the list has
    one entry, drawn with its text and its UTC time stamp. *)
Example scenario_feedback :
  match _render_feedback_panel (lit "Add dark mode") true
          (Datetime 2026 11 4 9 5 7 0) (World fresh []) with
  | Some (_, w) =>
      Some (length <$> session_state w !! "feedback", last (page w))
  | None => None
  end
  = Some (Some 1%nat,
          Some (Markdown (lit "- (2026-11-04T09:05:07 UTC) Add dark mode"))).
Proof. vm_compute. reflexivity. Qed.

(** * When a panel raises *)

Section Exact.

Implicit Types (w : world) (h l : list (gmap string (list N))).












End Exact.



Section FirstLoad.

Lemma idea_turns_records ins :
  flat_map idea_turn_of ins
  = map (fun i => idea_record (selected_ref i) (idea i) (idea_clock i))
      (List.filter idea_accepted ins).
Proof.
  induction ins as [|i ins IH]; simpl; [done|].
  rewrite idea_turn_of_accepted, IH. by destruct (idea_accepted i).
Qed.

Lemma feedback_turns_records ins :
  flat_map feedback_turn_of ins
  = map (fun i => feedback_record (feedback i) (feedback_clock i))
      (List.filter feedback_accepted ins).
Proof.
  induction ins as [|i ins IH]; simpl; [done|].
  rewrite IH. unfold feedback_turn_of at 1, feedback_turn.
  fold (feedback_accepted i). by destruct (feedback_accepted i).
Qed.

End FirstLoad.

(** X3.  From the empty session of a first page load, every sequence of runs
    of the script completes without an exception.  Afterwards the ideas
    and the feedback hold exactly one record per accepted submission, in
    the order of submission, and the session is again one on which the
    next run cannot raise. *)
Theorem runs_from_first_load (first : inputs) (rest : list inputs) :
  exists s,
    reruns ∅ (first :: rest) = Some s
    /\ wf_session s = true
    /\ s !! "ideas"
       = Some (map (fun i => idea_record (selected_ref i) (idea i) (idea_clock i))
                 (List.filter idea_accepted (first :: rest)))
    /\ s !! "feedback"
       = Some (map (fun i => feedback_record (feedback i) (feedback_clock i))
                 (List.filter feedback_accepted (first :: rest)))
    /\ length (default [] (s !! "ideas"))
       = length (List.filter idea_accepted (first :: rest))
    /\ length (default [] (s !! "feedback"))
       = length (List.filter feedback_accepted (first :: rest)).
Proof.
  destruct (reruns_histories (first :: rest) fresh fresh_wf)
    as (s & Hrun & Hwf & _ & Hi & Hf).
  exists s. split.
  { cbn [reruns] in *. by rewrite rerun_first. }
  split; [done|].
  rewrite Hi, Hf. cbn [default]. rewrite idea_turns_records, feedback_turns_records.
  change (default [] (fresh !! "ideas")) with (@nil (gmap string (list N))).
  change (default [] (fresh !! "feedback")) with (@nil (gmap string (list N))).
  cbn [app id]. by rewrite !length_map.
Qed.

(** * What [strip] keeps *)

Section Trim.

Implicit Types (s t : list N).

Lemma rstrip_prefix t : exists post, t = rstrip t ++ post /\ blank post = true.
Proof.
  unfold rstrip. destruct (lstrip_suffix (rev t)) as (pre & Ht & Hpre).
  exists (rev pre). split; [|by rewrite blank_rev].
  rewrite <- rev_app_distr, <- Ht. by rewrite rev_involutive.
Qed.

Lemma strip_decompose s :
  exists pre post,
    s = pre ++ strip s ++ post /\ blank pre = true /\ blank post = true.
Proof.
  destruct (lstrip_suffix s) as (pre & Hs & Hpre).
  destruct (rstrip_prefix (lstrip s)) as (post & Ht & Hpost).
  exists pre, post. unfold strip. by rewrite <- Ht.
Qed.

Lemma lstrip_head s c r : lstrip s = c :: r -> isspace c = false.
Proof.
  induction s as [|a s IH]; simpl; [done|].
  destruct (isspace a) eqn:Ha; [exact IH|]. by intros [= <- <-].
Qed.

Lemma lstrip_fixed s : match s with [] => True | c :: _ => isspace c = false end ->
  lstrip s = s.
Proof. destruct s as [|c s]; simpl; [done|]. by intros ->. Qed.

Lemma lstrip_idem s : lstrip (lstrip s) = lstrip s.
Proof.
  apply lstrip_fixed. destruct (lstrip s) as [|c r] eqn:E; [done|].
  by apply (lstrip_head s c r).
Qed.

Lemma rstrip_idem t : rstrip (rstrip t) = rstrip t.
Proof. unfold rstrip. by rewrite rev_involutive, lstrip_idem. Qed.

Lemma strip_head s c r : strip s = c :: r -> isspace c = false.
Proof.
  unfold strip. intros E.
  destruct (rstrip_prefix (lstrip s)) as (post & Ht & _).
  rewrite E in Ht. simpl in Ht. by apply (lstrip_head s c (r ++ post)).
Qed.

Lemma rstrip_last t c r d :
  rstrip t = c :: r -> isspace (List.last (c :: r) d) = false.
Proof.
  unfold rstrip. intros E.
  destruct (lstrip (rev t)) as [|a q] eqn:El; [done|].
  simpl in E. rewrite <- E, last_last. by apply (lstrip_head (rev t) a q).
Qed.

Lemma strip_trimmed s : trimmed (strip s) = true.
Proof.
  unfold trimmed. destruct (strip s) as [|c r] eqn:E; [done|].
  rewrite (strip_head s c r E).
  unfold strip in E. by rewrite (rstrip_last _ c r c E).
Qed.

Lemma strip_idem s : strip (strip s) = strip s.
Proof.
  unfold strip at 1.
  assert (Hl : lstrip (strip s) = strip s).
  { apply lstrip_fixed. destruct (strip s) as [|c r] eqn:E; [done|].
    by apply (strip_head s c r). }
  rewrite Hl. unfold strip. apply rstrip_idem.
Qed.

Lemma idea_record_text ref text now :
  idea_record ref text now !! "text" = Some (strip text).
Proof. reflexivity. Qed.

Lemma feedback_record_text text now :
  feedback_record text now !! "text" = Some (strip text).
Proof. reflexivity. Qed.

End Trim.

(** X4.  The text stored by an accepted idea or feedback submission is the
    submitted text with white space removed at its two ends and nowhere
    else: the input is some white space, then the stored text, then
    some white space, and the stored text is not empty and neither
    starts nor ends with white space. *)
Theorem stored_text_is_trimmed_input ref text now w :
  wf_session (session_state w) = true ->
  blank text = false ->
  (exists w' l record t pre post,
      _render_idea_panel ref text true now w = Some (tt, w')
      /\ session_state w' !! "ideas" = Some (l ++ [record])
      /\ record !! "text" = Some t
      /\ text = pre ++ t ++ post
      /\ blank pre = true /\ blank post = true
      /\ t <> [] /\ trimmed t = true)
  /\ (exists w' l record t pre post,
      _render_feedback_panel text true now w = Some (tt, w')
      /\ session_state w' !! "feedback" = Some (l ++ [record])
      /\ record !! "text" = Some t
      /\ text = pre ++ t ++ post
      /\ blank pre = true /\ blank post = true
      /\ t <> [] /\ trimmed t = true).
Proof.
  intros Hwf Hb.
  destruct (strip_decompose text) as (pre & post & Htext & Hpre & Hpost).
  assert (Hne : strip text <> []).
  { intros E. apply strip_nil in E. congruence. }
  split.
  - destruct (render_idea_panel_wf ref text true now w Hwf) as (l & Hl & Hrun).
    rewrite (idea_turn_accepted _ _ _ Hb) in Hrun.
    exists (World (<["ideas" := l ++ [idea_record ref text now]]> (session_state w))
              (page w ++ idea_page text true (l ++ [idea_record ref text now]))),
      l, (idea_record ref text now), (strip text), pre, post.
    split; [exact Hrun|]. cbn [session_state].
    split; [apply lookup_insert_eq|]. split; [apply idea_record_text|].
    auto using strip_trimmed.
  - destruct (render_feedback_panel_wf text true now w Hwf) as (l & Hl & Hrun).
    rewrite (feedback_turn_accepted _ _ Hb) in Hrun.
    exists (World (<["feedback" := l ++ [feedback_record text now]]> (session_state w))
              (page w ++ feedback_page text true (l ++ [feedback_record text now]))),
      l, (feedback_record text now), (strip text), pre, post.
    split; [exact Hrun|]. cbn [session_state].
    split; [apply lookup_insert_eq|]. split; [apply feedback_record_text|].
    auto using strip_trimmed.
Qed.

Lemma stored_text_is_trimmed_input_witness :
  wf_session (session_state (World fresh [])) = true
  /\ blank (lit "  more  labs ") = false
  /\ (exists w' l record t pre post,
        _render_idea_panel None (lit "  more  labs ") true
          (Datetime 2026 11 4 9 5 7 0) (World fresh []) = Some (tt, w')
        /\ session_state w' !! "ideas" = Some (l ++ [record])
        /\ record !! "text" = Some t
        /\ lit "  more  labs " = pre ++ t ++ post
        /\ blank pre = true /\ blank post = true
        /\ t <> [] /\ trimmed t = true).
Proof.
  split; [reflexivity|]. split; [reflexivity|].
  exact (proj1 (stored_text_is_trimmed_input None (lit "  more  labs ")
                  (Datetime 2026 11 4 9 5 7 0) (World fresh [])
                  eq_refl eq_refl)).
Defined.

(** X5.  In every session reached by running the script from a fresh
    session, each stored idea and each stored feedback entry has a text
    that is not empty, neither starts nor ends with white space, and is
    left as it is by a further [strip]. *)
Theorem stored_texts_nonempty_trimmed (ins : list inputs) :
  exists s ideas entries,
    reruns fresh ins = Some s
    /\ s !! "ideas" = Some ideas
    /\ s !! "feedback" = Some entries
    /\ Forall (fun item : gmap string (list N) =>
                 exists t, item !! "text" = Some t
                           /\ t <> [] /\ trimmed t = true /\ strip t = t)
         (ideas ++ entries).
Proof.
  destruct (reruns_histories ins fresh fresh_wf) as (s & Hrun & _ & _ & Hi & Hf).
  exists s, (flat_map idea_turn_of ins), (flat_map feedback_turn_of ins).
  split; [done|]. split; [exact Hi|]. split; [exact Hf|].
  rewrite idea_turns_records, feedback_turns_records.
  clear. apply Forall_app. split.
  - induction ins as [|i ins IH]; simpl; [constructor|].
    destruct (idea_accepted i) eqn:Hacc; [|exact IH].
    simpl. constructor; [|exact IH].
    exists (strip (idea i)). split; [apply idea_record_text|].
    apply andb_prop in Hacc as [_ Ht].
    split; [by apply truthy_nonempty|].
    split; [apply strip_trimmed | apply strip_idem].
  - induction ins as [|i ins IH]; simpl; [constructor|].
    destruct (feedback_accepted i) eqn:Hacc; [|exact IH].
    simpl. constructor; [|exact IH].
    exists (strip (feedback i)). split; [apply feedback_record_text|].
    apply andb_prop in Hacc as [_ Ht].
    split; [by apply truthy_nonempty|].
    split; [apply strip_trimmed | apply strip_idem].
Qed.

(** * What the panels draw, against what they store *)

Section Drawn.

Implicit Types (w : world) (l : list (gmap string (list N))).

Lemma listing_markdown heading line l e :
  (forall d, exists b, line d = Markdown b) ->
  In e (listing heading line l) -> exists b, e = Markdown b.
Proof.
  intros Hline. unfold listing. destruct l as [|x l']; [done|].
  intros [<- | Hin]; [eauto|].
  apply in_map_iff in Hin as (d & <- & _). apply Hline.
Qed.

Lemma notice_cases clicked text ok :
  notice clicked text ok
  = if clicked then if blank text then [Warning EMPTY_WARNING] else [Success ok]
    else [].
Proof. unfold notice. rewrite truthy_strip. by destruct clicked, (blank text). Qed.

Lemma turn_length_cases clicked text :
  (if clicked && truthy (strip text) then 1%nat else 0%nat)
  = if clicked then if blank text then 0%nat else 1%nat else 0%nat.
Proof. rewrite truthy_strip. by destruct clicked, (blank text). Qed.

Lemma idea_turn_length ref text clicked now :
  length (idea_turn ref text clicked now)
  = if clicked then if blank text then 0%nat else 1%nat else 0%nat.
Proof.
  rewrite <- turn_length_cases. unfold idea_turn.
  by destruct (clicked && truthy (strip text)).
Qed.

Lemma feedback_turn_length text clicked now :
  length (feedback_turn text clicked now)
  = if clicked then if blank text then 0%nat else 1%nat else 0%nat.
Proof.
  rewrite <- turn_length_cases. unfold feedback_turn.
  by destruct (clicked && truthy (strip text)).
Qed.

(** Membership of a note in what a panel draws: only the note under the
    button can be a warning or a confirmation. *)
Lemma in_panel_note (form : list element) clicked text ok heading line l e :
  (forall x, In x form -> x <> e) ->
  (forall b, e <> Markdown b) ->
  (forall d, exists b, line d = Markdown b) ->
  In e (form ++ notice clicked text ok ++ listing heading line l)
  <-> In e (notice clicked text ok).
Proof.
  intros Hform He Hline. rewrite !in_app_iff. split; [|auto].
  intros [H | [H | H]]; [|done|].
  - by apply Hform in H.
  - apply (listing_markdown _ _ _ _ Hline) in H as [b ->]. by destruct (He b).
Qed.

Lemma idea_line_markdown d : exists b, idea_line d = Markdown b.
Proof. unfold idea_line. eauto. Qed.

Lemma feedback_line_markdown d : exists b, feedback_line d = Markdown b.
Proof. unfold feedback_line. eauto. Qed.

Lemma filter_chat_lines l :
  List.filter is_chat_message (map chat_line l) = map chat_line l.
Proof. induction l as [|x l IH]; simpl; [done|]. by rewrite IH. Qed.

End Drawn.

(** X6.  The note under the submit button tells what happened to the list:
    on a session on which the panel does not raise, the confirmation is
    drawn exactly when the list has grown by one record, the warning
    exactly when the button was pressed on a blank text, and in every
    other case the list is the one before.  This holds for the idea
    panel and for the feedback panel. *)
Theorem note_matches_outcome ref text clicked now w :
  wf_session (session_state w) = true ->
  (exists w' l l' drawn,
      _render_idea_panel ref text clicked now w = Some (tt, w')
      /\ session_state w !! "ideas" = Some l
      /\ session_state w' !! "ideas" = Some l'
      /\ page w' = page w ++ drawn
      /\ (In (Success (lit "아이디어가 저장되었습니다.")) drawn
          <-> length l' = S (length l))
      /\ (In (Warning (lit "내용을 입력해 주세요.")) drawn
          <-> clicked = true /\ blank text = true)
      /\ (l' = l \/ length l' = S (length l)))
  /\ (exists w' l l' drawn,
      _render_feedback_panel text clicked now w = Some (tt, w')
      /\ session_state w !! "feedback" = Some l
      /\ session_state w' !! "feedback" = Some l'
      /\ page w' = page w ++ drawn
      /\ (In (Success (lit "의견이 전송되었습니다.")) drawn
          <-> length l' = S (length l))
      /\ (In (Warning (lit "내용을 입력해 주세요.")) drawn
          <-> clicked = true /\ blank text = true)
      /\ (l' = l \/ length l' = S (length l))).
Proof.
  intros Hwf. split.
  - destruct (render_idea_panel_wf ref text clicked now w Hwf) as (l & Hl & Hrun).
    eexists _, l, _, _. split; [exact Hrun|]. split; [exact Hl|].
    cbn [session_state page]. split; [apply lookup_insert_eq|].
    split; [reflexivity|].
    unfold idea_page.
    rewrite !in_panel_note
      by (try apply idea_line_markdown; try done;
          intros x [<-|[<-|[<-|[]]]]; done).
    destruct clicked; [destruct (blank text) eqn:Hb|].
    + rewrite (idea_turn_blank _ _ _ _ Hb), (notice_blank _ _ Hb), app_nil_r.
      split; [split; [intros [[=]|[]] | lia]|].
      split; [split; [done | by left] | by left].
    + rewrite (idea_turn_accepted _ _ _ Hb), (notice_accepted _ _ Hb), length_app.
      split; [split; [simpl; lia | by left]|].
      split; [split; [intros [[=]|[]] | by intros [_ [=]]] | right; simpl; lia].
    + change (idea_turn ref text false now) with (@nil (gmap string (list N))).
      rewrite app_nil_r. unfold notice.
      split; [split; [intros [] | lia]|].
      split; [split; [intros [] | by intros [[=] _]] | by left].
  - destruct (render_feedback_panel_wf text clicked now w Hwf) as (l & Hl & Hrun).
    eexists _, l, _, _. split; [exact Hrun|]. split; [exact Hl|].
    cbn [session_state page]. split; [apply lookup_insert_eq|].
    split; [reflexivity|].
    unfold feedback_page.
    rewrite !in_panel_note
      by (try apply feedback_line_markdown; try done;
          intros x [<-|[<-|[<-|[<-|[]]]]]; done).
    destruct clicked; [destruct (blank text) eqn:Hb|].
    + rewrite (feedback_turn_blank _ _ _ Hb), (notice_blank _ _ Hb), app_nil_r.
      split; [split; [intros [[=]|[]] | lia]|].
      split; [split; [done | by left] | by left].
    + rewrite (feedback_turn_accepted _ _ Hb), (notice_accepted _ _ Hb), length_app.
      split; [split; [simpl; lia | by left]|].
      split; [split; [intros [[=]|[]] | by intros [_ [=]]] | right; simpl; lia].
    + change (feedback_turn text false now) with (@nil (gmap string (list N))).
      rewrite app_nil_r. unfold notice.
      split; [split; [intros [] | lia]|].
      split; [split; [intros [] | by intros [[=] _]] | by left].
Qed.

Lemma note_matches_outcome_witness :
  wf_session (session_state (World two_each [])) = true
  /\ exists w' drawn,
      _render_idea_panel None (lit "third") true (Datetime 2026 11 4 10 0 0 0)
        (World two_each []) = Some (tt, w')
      /\ page w' = drawn
      /\ In (Success (lit "아이디어가 저장되었습니다.")) drawn
      /\ length (default [] (session_state w' !! "ideas")) = 3%nat.
Proof.
  split; [reflexivity|].
  destruct (proj1 (note_matches_outcome None (lit "third") true
                     (Datetime 2026 11 4 10 0 0 0) (World two_each []) eq_refl))
    as (w' & l & l' & drawn & Hrun & Hl & Hl' & Hpage & Hok & _ & _).
  exists w', drawn. split; [exact Hrun|]. split; [exact Hpage|].
  injection Hl as <-.
  assert (Hin : In (Success (lit "아이디어가 저장되었습니다.")) drawn).
  { rewrite (run_render_idea_panel None (lit "third") true _ (World two_each []) _
               eq_refl eq_refl) in Hrun.
    injection Hrun as <-. cbn [page app] in Hpage. subst drawn.
    unfold idea_page. rewrite !in_app_iff. right. left. by left. }
  split; [exact Hin|]. rewrite Hl'. cbn [default id]. by apply Hok.
Defined.

(** X7.  On a session on which it does not raise, the chat panel draws one
    chat message per entry of the history as it is after the run, in
    the order of the history and with the stored role and content, the
    pair of a just accepted prompt included; it draws no other chat
    message. *)
Theorem chat_page_shows_history ref prompt w :
  wf_session (session_state w) = true ->
  exists w' h' drawn,
    _render_chat ref prompt w = Some (tt, w')
    /\ session_state w' !! "chat_history" = Some h'
    /\ page w' = page w ++ drawn
    /\ List.filter is_chat_message drawn
       = map (fun msg => ChatMessage (default [] (msg !! "role"))
                           (default [] (msg !! "content"))) h'
    /\ Forall (fun msg => is_Some (msg !! "role") /\ is_Some (msg !! "content")) h'.
Proof.
  intros Hwf. destruct (wf_session_inv _ Hwf) as (c & _ & _ & Hc & _ & _ & Hco & _).
  eexists _, _, _. split; [by apply run_render_chat|].
  cbn [session_state page]. split; [apply lookup_insert_eq|].
  split; [reflexivity|]. split.
  - unfold chat_page. cbn [List.filter is_chat_message].
    rewrite List.filter_app. cbn [List.filter is_chat_message].
    rewrite !filter_chat_lines. by rewrite map_app.
  - assert (Hall : forallb (has_keys ["role"; "content"]) (c ++ chat_turn ref prompt)
                   = true) by (by rewrite forallb_app, Hco, chat_turn_keys).
    apply Forall_forallb in Hall. eapply Forall_impl; [exact Hall|].
    intros msg Hmsg. cbn beta in Hmsg.
    rewrite (has_keys_lookup _ _ "role" Hmsg), (has_keys_lookup _ _ "content" Hmsg)
      by set_solver.
    eauto.
Qed.

Lemma chat_page_shows_history_witness :
  wf_session (session_state (World fresh [])) = true
  /\ exists w' drawn,
      _render_chat None (Some (lit "hi")) (World fresh []) = Some (tt, w')
      /\ page w' = drawn
      /\ List.filter is_chat_message drawn
         = [ChatMessage (lit "user") (lit "hi");
            ChatMessage (lit "assistant") (_fake_answer (lit "hi") None)].
Proof.
  split; [reflexivity|].
  destruct (chat_page_shows_history None (Some (lit "hi")) (World fresh []) eq_refl)
    as (w' & h' & drawn & Hrun & Hh & Hpage & Hdrawn & _).
  exists w', drawn. split; [exact Hrun|]. split; [exact Hpage|].
  rewrite Hdrawn.
  rewrite (run_render_chat None (Some (lit "hi")) (World fresh []) [] eq_refl eq_refl)
    in Hrun.
  injection Hrun as <-. cbn [session_state] in Hh.
  rewrite lookup_insert_eq in Hh. injection Hh as <-. reflexivity.
Defined.



(** * How the panels compose *)



(** * The select box, the answer and the stored reference *)

Section Selection.

(** What [ref if ref else marker] gives for a selection of the select
    box. *)
Lemma selection_text (marker : list N) (r : option (list N)) :
  In r selectbox_options ->
  match r with
  | Some name => if truthy name then name else marker
  | None => marker
  end
  = default marker r.
Proof.
  intros Hr. destruct r as [name|]; [|done].
  destruct Hr as [?|[[= <-]|[[= <-]|[[= <-]|[]]]]]; done.
Qed.

(** Among the names of the select box and a marker, none is the end of
    a text that ends with another one. *)
Lemma selection_texts_differ (marker : list N) (r1 r2 : option (list N))
    (q1 q2 : list N) :
  marker = NO_REF_SELECTED \/ marker = NO_REF \/ marker = lit "교재를 선택하세요" ->
  In r1 selectbox_options -> In r2 selectbox_options ->
  q1 ++ default marker r1 = q2 ++ default marker r2 ->
  r1 = r2.
Proof.
  intros Hm H1 H2 E.
  apply (f_equal (@rev N)) in E. rewrite !rev_app_distr in E.
  destruct Hm as [-> | [-> | ->]];
    destruct H1 as [<-|[<-|[<-|[<-|[]]]]];
    destruct H2 as [<-|[<-|[<-|[<-|[]]]]];
    try reflexivity; exfalso; vm_compute in E; discriminate E.
Qed.

End Selection.

(** X10.  The answer tells the question and the selection apart: over the
    selections of the select box, two calls of [_fake_answer] give the
    same text only for the same question and the same selection. *)
Theorem fake_answer_determines_input (q1 q2 : list N) (r1 r2 : option (list N)) :
  In r1 selectbox_options ->
  In r2 selectbox_options ->
  _fake_answer q1 r1 = _fake_answer q2 r2 ->
  q1 = q2 /\ r1 = r2.
Proof.
  intros H1 H2 E. unfold _fake_answer in E.
  rewrite (selection_text _ r1 H1), (selection_text _ r2 H2) in E.
  apply app_inv_head in E.
  assert (E1 : (q1 ++ nl ++ nl ++ lit "참고한 교재: ") ++ default NO_REF_SELECTED r1
               = (q2 ++ nl ++ nl ++ lit "참고한 교재: ") ++ default NO_REF_SELECTED r2).
  { apply (app_inv_tail (nl ++ ANSWER_SUFFIX)).
    rewrite <- !app_assoc. exact E. }
  assert (Hr : r1 = r2)
    by exact (selection_texts_differ NO_REF_SELECTED r1 r2 _ _
                (or_introl eq_refl) H1 H2 E1).
  subst r2. split; [|done].
  apply app_inv_tail in E1.
  apply (app_inv_tail (nl ++ nl ++ lit "참고한 교재: ")). exact E1.
Qed.

Lemma fake_answer_determines_input_witness :
  In (Some (lit "Serway")) selectbox_options
  /\ (_fake_answer (lit "F = ma?") (Some (lit "Serway"))
      = _fake_answer (lit "F = ma?") (Some (lit "Serway")))
  /\ lit "F = ma?" = lit "F = ma?".
Proof.
  assert (H : In (Some (lit "Serway")) selectbox_options) by (right; by left).
  split; [exact H|]. split; [reflexivity|].
  exact (proj1 (fake_answer_determines_input (lit "F = ma?") (lit "F = ma?")
                  (Some (lit "Serway")) (Some (lit "Serway")) H H eq_refl)).
Defined.

(** X11.  The reference stored with an idea tells the selection at the
    moment of submission: for a selection of the select box, an
    accepted idea stores the marker "참고 교재 없음" exactly when nothing
    was selected, and stores one of the reference names exactly when
    that name was selected; the marker is not one of the names. *)
Theorem stored_ref_identifies_selection ref text now w :
  wf_session (session_state w) = true ->
  In ref selectbox_options ->
  blank text = false ->
  exists w' l record stored,
    _render_idea_panel ref text true now w = Some (tt, w')
    /\ session_state w' !! "ideas" = Some (l ++ [record])
    /\ record !! "ref" = Some stored
    /\ (stored = lit "참고 교재 없음" <-> ref = None)
    /\ (In stored REFERENCE_MATERIALS <-> ref = Some stored).
Proof.
  intros Hwf Href Hb.
  destruct (render_idea_panel_wf ref text true now w Hwf) as (l & Hl & Hrun).
  rewrite (idea_turn_accepted _ _ _ Hb) in Hrun.
  eexists _, l, (idea_record ref text now), (default NO_REF ref).
  split; [exact Hrun|]. cbn [session_state].
  split; [apply lookup_insert_eq|].
  split.
  { unfold idea_record. rewrite lookup_insert_ne by done.
    rewrite lookup_insert_eq. f_equal. by apply selection_text. }
  destruct Href as [<-|[<-|[<-|[<-|[]]]]]; cbn [default id]; split; split;
    try done; try (by intros [=]);
    try (intros E; vm_compute in E; discriminate E);
    try (intros [E|[E|[E|[]]]]; vm_compute in E; discriminate E);
    try (intros _; unfold REFERENCE_MATERIALS; simpl; tauto).
Qed.

Lemma stored_ref_identifies_selection_witness :
  wf_session (session_state (World fresh [])) = true
  /\ In (Some (lit "Mechanics")) selectbox_options
  /\ blank (lit "more labs") = false
  /\ exists w' l record stored,
      _render_idea_panel (Some (lit "Mechanics")) (lit "more labs") true
        (Datetime 2026 11 4 9 5 7 0) (World fresh []) = Some (tt, w')
      /\ session_state w' !! "ideas" = Some (l ++ [record])
      /\ record !! "ref" = Some stored
      /\ (stored = lit "참고 교재 없음" <-> Some (lit "Mechanics") = None)
      /\ (In stored REFERENCE_MATERIALS <-> Some (lit "Mechanics") = Some stored).
Proof.
  assert (H : In (Some (lit "Mechanics")) selectbox_options)
    by (right; right; right; by left).
  split; [reflexivity|]. split; [exact H|]. split; [reflexivity|].
  exact (stored_ref_identifies_selection (Some (lit "Mechanics")) (lit "more labs")
           (Datetime 2026 11 4 9 5 7 0) (World fresh []) eq_refl H eq_refl).
Defined.

(** X12.  The select box of [main] shows a different, non-empty label for
    each of its options: the reference name for a reference, and
    "교재를 선택하세요" for the empty selection, which is not the name of
    a reference. *)
Theorem format_func_labels_distinct (r1 r2 : option (list N)) :
  In r1 selectbox_options ->
  In r2 selectbox_options ->
  format_func r1 <> []
  /\ format_func r1 = default (lit "교재를 선택하세요") r1
  /\ (format_func r1 = format_func r2 -> r1 = r2).
Proof.
  intros H1 H2. unfold format_func.
  rewrite (selection_text _ r1 H1), (selection_text _ r2 H2).
  split; [|split; [done|]].
  - destruct H1 as [<-|[<-|[<-|[<-|[]]]]]; cbn [default id];
      intros E; vm_compute in E; discriminate E.
  - intros E.
    apply (selection_texts_differ (lit "교재를 선택하세요") r1 r2 [] []); auto.
Qed.

Lemma format_func_labels_distinct_witness :
  In None selectbox_options
  /\ In (Some (lit "Halliday")) selectbox_options
  /\ format_func None <> []
  /\ format_func None = default (lit "교재를 선택하세요") None
  /\ (format_func None = format_func (Some (lit "Halliday"))
      -> None = Some (lit "Halliday")).
Proof.
  assert (H1 : In None selectbox_options) by (by left).
  assert (H2 : In (Some (lit "Halliday")) selectbox_options)
    by (right; right; by left).
  split; [exact H1|]. split; [exact H2|].
  exact (format_func_labels_distinct None (Some (lit "Halliday")) H1 H2).
Defined.

(** * Time stamps *)

Section Timestamps.

Lemma zfill2_table :
  forallb (fun n => (length (zfill 2 n) =? 2)%nat && (digits_value (zfill 2 n) =? n))
    (map N.of_nat (seq 0 (N.to_nat 100))) = true.
Proof. vm_compute. reflexivity. Qed.

Lemma zfill4_table :
  forallb (fun n => (length (zfill 4 n) =? 4)%nat && (digits_value (zfill 4 n) =? n))
    (map N.of_nat (seq 0 (N.to_nat 10000))) = true.
Proof. vm_compute. reflexivity. Qed.

Lemma below_in_range n bound :
  n < bound -> In n (map N.of_nat (seq 0 (N.to_nat bound))).
Proof.
  intros Hn. apply in_map_iff. exists (N.to_nat n). split; [apply N2Nat.id|].
  apply in_seq. lia.
Qed.

Lemma zfill2_spec n :
  n < 100 -> length (zfill 2 n) = 2%nat /\ digits_value (zfill 2 n) = n.
Proof.
  intros Hn. pose proof zfill2_table as T. rewrite forallb_forall in T.
  destruct (andb_prop _ _ (T n (below_in_range n 100 Hn))) as [Hl Hv].
  split; [by apply Nat.eqb_eq | by apply N.eqb_eq].
Qed.

Lemma zfill4_spec n :
  n < 10000 -> length (zfill 4 n) = 4%nat /\ digits_value (zfill 4 n) = n.
Proof.
  intros Hn. pose proof zfill4_table as T. rewrite forallb_forall in T.
  destruct (andb_prop _ _ (T n (below_in_range n 10000 Hn))) as [Hl Hv].
  split; [by apply Nat.eqb_eq | by apply N.eqb_eq].
Qed.

Lemma valid_datetime_bounds dt :
  valid_datetime dt = true ->
  year dt < 10000 /\ month dt < 100 /\ day dt < 100
  /\ hour dt < 100 /\ minute dt < 100 /\ second dt < 100.
Proof.
  unfold valid_datetime. rewrite !andb_true_iff.
  rewrite !N.leb_le, !N.ltb_lt. lia.
Qed.

(** Two fields of the same width followed by the same separator. *)
Lemma field_inj (a b sep resta restb : list N) :
  length a = length b ->
  a ++ sep ++ resta = b ++ sep ++ restb ->
  a = b /\ resta = restb.
Proof.
  intros Hlen E. apply app_inj_1 in E as [-> E]; [|done].
  by apply app_inv_head in E.
Qed.

End Timestamps.

(** X13.  The time stamp stored with an idea or an opinion has always the 19
    characters of [YYYY-MM-DDTHH:MM:SS], and it tells the clock reading
    to the second: two readings of the clock print the same time stamp
    only if they differ at most in their microseconds. *)
Theorem timestamp_fixed_width_injective (dt1 dt2 : datetime) :
  valid_datetime dt1 = true ->
  valid_datetime dt2 = true ->
  length (isoformat_seconds dt1) = 19%nat
  /\ (isoformat_seconds dt1 = isoformat_seconds dt2 ->
      replace_microsecond dt1 0 = replace_microsecond dt2 0).
Proof.
  intros V1 V2.
  destruct (valid_datetime_bounds _ V1) as (Y1 & M1 & D1 & H1 & I1 & S1).
  destruct (valid_datetime_bounds _ V2) as (Y2 & M2 & D2 & H2 & I2 & S2).
  destruct (zfill4_spec _ Y1) as [LY1 VY1], (zfill4_spec _ Y2) as [LY2 VY2].
  destruct (zfill2_spec _ M1) as [LM1 VM1], (zfill2_spec _ M2) as [LM2 VM2].
  destruct (zfill2_spec _ D1) as [LD1 VD1], (zfill2_spec _ D2) as [LD2 VD2].
  destruct (zfill2_spec _ H1) as [LH1 VH1], (zfill2_spec _ H2) as [LH2 VH2].
  destruct (zfill2_spec _ I1) as [LI1 VI1], (zfill2_spec _ I2) as [LI2 VI2].
  destruct (zfill2_spec _ S1) as [LS1 VS1], (zfill2_spec _ S2) as [LS2 VS2].
  unfold isoformat_seconds. split.
  - rewrite !length_app, LY1, LM1, LD1, LH1, LI1, LS1. reflexivity.
  - intros E.
    apply field_inj in E as [EY E]; [|congruence].
    apply field_inj in E as [EM E]; [|congruence].
    apply field_inj in E as [ED E]; [|congruence].
    apply field_inj in E as [EH E]; [|congruence].
    apply field_inj in E as [EI ES]; [|congruence].
    unfold replace_microsecond.
    rewrite <- VY1, <- VM1, <- VD1, <- VH1, <- VI1, <- VS1.
    rewrite EY, EM, ED, EH, EI, ES.
    by rewrite VY2, VM2, VD2, VH2, VI2, VS2.
Qed.

Lemma timestamp_fixed_width_injective_witness :
  valid_datetime (Datetime 2026 11 4 9 5 7 123456) = true
  /\ valid_datetime (Datetime 2026 11 4 9 5 7 999) = true
  /\ length (isoformat_seconds (Datetime 2026 11 4 9 5 7 123456)) = 19%nat
  /\ (isoformat_seconds (Datetime 2026 11 4 9 5 7 123456)
      = isoformat_seconds (Datetime 2026 11 4 9 5 7 999) ->
      replace_microsecond (Datetime 2026 11 4 9 5 7 123456) 0
      = replace_microsecond (Datetime 2026 11 4 9 5 7 999) 0).
Proof.
  split; [reflexivity|]. split; [reflexivity|].
  exact (timestamp_fixed_width_injective (Datetime 2026 11 4 9 5 7 123456)
           (Datetime 2026 11 4 9 5 7 999) eq_refl eq_refl).
Defined.

(** * What [_init_state] leaves alone *)

(** X14.  [_init_state] never changes or removes what the session already
    holds, under any attribute name, and it adds nothing but the three
    lists: an attribute that was missing is afterwards the empty list if
    it is one of ["chat_history"], ["ideas"], ["feedback"], and is still
    missing otherwise. *)
Theorem init_state_keeps_attributes w :
  exists w',
    _init_state w = Some (tt, w')
    /\ (forall k l, session_state w !! k = Some l -> session_state w' !! k = Some l)
    /\ (forall k, session_state w !! k = None ->
                  session_state w' !! k
                  = if bool_decide (k ∈ ["chat_history"; "ideas"; "feedback"])
                    then Some [] else None).
Proof.
  eexists. split; [apply run_init_state|]. cbn [session_state]. split.
  - intros k l Hk. rewrite !lookup_init_attr.
    repeat case_decide; simplify_eq/=; rewrite ?Hk; done.
  - intros k Hk. rewrite !lookup_init_attr.
    repeat case_decide; simplify_eq/=; rewrite ?Hk; try done; exfalso;
      match goal with
      | H : _ ∉ _ |- _ => apply H; rewrite !elem_of_cons; auto
      | H : _ ∈ _ |- _ =>
          rewrite !elem_of_cons, elem_of_nil in H; intuition congruence
      end.
Qed.
